(** * RouteBuilder: the route-ordering pipeline of [main.py]

    A shallow embedding of the class [RouteBuilder] and of the library
    calls it makes (requests, numpy, scipy, folium, logging, os.path).

    Conventions of the model:
    - a Python float is an exact rational, or one of the three special
      values [inf], [-inf], [nan]; rounding is modelled where it decides
      an outcome, in the float64 solver [Scipy64];
    - a raised exception is a value of [exn]; a call returns [Ok v] or
      [Raise e];
    - the routing service, the file system and the log are fields of
      [World], threaded through every method of the class. *)

From Stdlib Require Import List String Ascii Bool Arith ZArith QArith Lia Lqa.
From Stdlib Require Import Permutation.
From Stdlib Require Import Floats.
Import ListNotations.

Set Warnings "-register-all".
Set Warnings "-inexact-float".

(** ** Exceptions and results *)

Module Py.

(** The exceptions this program can raise.  [Exception_ msg] is the plain
    [raise Exception(msg)] of the source; the others come from the
    interpreter and the libraries. *)
Inductive exn : Type :=
| Exception_ (msg : string)
| KeyError (key : string)
| IndexError
| TypeError
| ValueError
| OSError
| ConnectionError
| JSONDecodeError
| RecursionError
| OverflowError.

(** [type(e).__name__] *)
Definition exn_class (e : exn) : string :=
  match e with
  | Exception_ _ => "Exception"
  | KeyError _ => "KeyError"
  | IndexError => "IndexError"
  | TypeError => "TypeError"
  | ValueError => "ValueError"
  | OSError => "OSError"
  | ConnectionError => "ConnectionError"
  | JSONDecodeError => "JSONDecodeError"
  | RecursionError => "RecursionError"
  | OverflowError => "OverflowError"
  end.

Inductive result (A : Type) : Type :=
| Ok (a : A)
| Raise (e : exn).

Arguments Ok {A} a.
Arguments Raise {A} e.

Definition rbind {A B} (r : result A) (k : A -> result B) : result B :=
  match r with
  | Ok a => k a
  | Raise e => Raise e
  end.

(** The call raised an exception whose class is named [cls]. *)
Definition raises {A} (r : result A) (cls : string) : Prop :=
  exists e, r = Raise e /\ exn_class e = cls.

Definition succeeds {A} (r : result A) : Prop :=
  exists a, r = Ok a.

(** [[f(x) for x in l]], stopping at the first exception. *)
Fixpoint comprehension {A B} (f : A -> result B) (l : list A)
  : result (list B) :=
  match l with
  | [] => Ok []
  | x :: l' =>
      rbind (f x) (fun y =>
      rbind (comprehension f l') (fun ys => Ok (y :: ys)))
  end.

End Py.
Import Py.

(** ** Numbers *)

Inductive num : Type :=
| Fin (q : Q)
| PInf
| NInf
| NaN.

Definition is_finite (x : num) : bool :=
  match x with Fin _ => true | _ => false end.

(** Float addition, on the values a cost can take. *)
Definition num_add (x y : num) : num :=
  match x, y with
  | NaN, _ | _, NaN => NaN
  | PInf, NInf | NInf, PInf => NaN
  | PInf, _ | _, PInf => PInf
  | NInf, _ | _, NInf => NInf
  | Fin a, Fin b => Fin (a + b)
  end.

(** [x < y] on floats; every comparison with [nan] is false. *)
Definition num_ltb (x y : num) : bool :=
  match x, y with
  | NaN, _ | _, NaN => false
  | _, NInf => false
  | NInf, _ => true
  | PInf, _ => false
  | Fin _, PInf => true
  | Fin a, Fin b => negb (Qle_bool b a)
  end.

(** ** JSON values, as [response.json()] returns them

    A JSON object becomes a Python dict, modelled as an association list
    in which the first binding of a key is the one the dict holds.  A
    number written with a fraction or an exponent becomes a float
    ([JNum]), a number written without becomes an int of any size
    ([JInt]). *)

Inductive json : Type :=
| JNull
| JBool (b : bool)
| JNum (x : num)
| JStr (s : string)
| JArr (items : list json)
| JObj (fields : list (string * json))
| JInt (z : Z).

Fixpoint assoc {V} (k : string) (kv : list (string * V)) : option V :=
  match kv with
  | [] => None
  | (k', v) :: kv' => if String.eqb k k' then Some v else assoc k kv'
  end.

(** [d[key]] for a string key. *)
Definition getitem_str (d : json) (key : string) : result json :=
  match d with
  | JObj fields =>
      match assoc key fields with
      | Some v => Ok v
      | None => Raise (KeyError key)
      end
  | _ => Raise TypeError
  end.

(** [d[0]].  A dict built from JSON has string keys only, so the integer
    key is never found; the [KeyError] then carries the key as text. *)
Definition getitem_0 (d : json) : result json :=
  match d with
  | JArr [] => Raise IndexError
  | JArr (x :: _) => Ok x
  | JStr EmptyString => Raise IndexError
  | JStr (String c _) => Ok (JStr (String c EmptyString))
  | JObj _ => Raise (KeyError "0")
  | _ => Raise TypeError
  end.

(** ** numpy arrays *)

(** What [np.array] builds from a JSON value: a two-dimensional array of
    numbers, kept as its rows, or any other array, kept as the value it was
    built from. *)
Inductive NDArray : Type :=
| Matrix (rows : list (list num))
| OtherArray (src : json).

(** The shape numpy discovers in nested lists; [None] when the nesting is
    ragged. *)
Fixpoint shape_of (j : json) : option (list nat) :=
  match j with
  | JArr items =>
      match map shape_of items with
      | [] => Some [0%nat]
      | None :: _ => None
      | Some s :: ss =>
          if forallb (fun o => match o with
                               | Some s' =>
                                   if list_eq_dec Nat.eq_dec s s'
                                   then true else false
                               | None => false
                               end) ss
          then Some (S (List.length ss) :: s)
          else None
      end
  | _ => Some []
  end.

(** A leaf of a numeric array; booleans count as 1 and 0. *)
Definition as_number (j : json) : option num :=
  match j with
  | JNum x => Some x
  | JInt z => Some (Fin (inject_Z z))
  | JBool true => Some (Fin 1)
  | JBool false => Some (Fin 0)
  | _ => None
  end.

Fixpoint all_some {A} (l : list (option A)) : option (list A) :=
  match l with
  | [] => Some []
  | None :: _ => None
  | Some a :: l' =>
      match all_some l' with
      | Some r => Some (a :: r)
      | None => None
      end
  end.

Definition as_row (j : json) : option (list num) :=
  match j with
  | JArr items => all_some (map as_number items)
  | _ => None
  end.

Definition as_rows (j : json) : option (list (list num)) :=
  match j with
  | JArr items => all_some (map as_row items)
  | _ => None
  end.

(** Whether every leaf is a number or a boolean. *)
Fixpoint numeric_leaves (j : json) : bool :=
  match j with
  | JArr items => forallb numeric_leaves items
  | JNum _ | JBool _ | JInt _ => true
  | _ => false
  end.

Fixpoint has_float (j : json) : bool :=
  match j with
  | JArr items => existsb has_float items
  | JNum _ => true
  | _ => false
  end.

(** An int that numpy can hold as int64 or uint64. *)
Definition fits_64 (z : Z) : bool :=
  (- 9223372036854775808 <=? z)%Z && (z <? 18446744073709551616)%Z.

Fixpoint ints_fit (j : json) : bool :=
  match j with
  | JArr items => forallb ints_fit items
  | JInt z => fits_64 z
  | _ => true
  end.

(** The dtype numpy finds for numeric leaves is numeric (bool, int64,
    uint64 or float64) when a float is among them or every int fits in
    64 bits; with an int beyond that and no float it is [object]. *)
Definition numeric_dtype (j : json) : bool :=
  numeric_leaves j && (has_float j || ints_fit j).

(** [np.array(j)]: ragged nesting is an error (numpy 1.24 and later); a
    homogeneous two-level nesting of numbers of a numeric dtype is a
    matrix. *)
Definition np_array (j : json) : result NDArray :=
  match shape_of j with
  | None => Raise ValueError
  | Some [_; _] =>
      match as_rows j with
      | Some rows =>
          if has_float j || ints_fit j
          then Ok (Matrix rows) else Ok (OtherArray j)
      | None => Ok (OtherArray j)
      end
  | Some _ => Ok (OtherArray j)
  end.

(** ** The assignment problem *)

Definition entry (rows : list (list num)) (i j : nat) : num :=
  nth j (nth i rows []) NaN.

(** [rows] has [n] rows of [m] entries each. *)
Definition is_shape (n m : nat) (rows : list (list num)) : Prop :=
  List.length rows = n /\ Forall (fun r => List.length r = m) rows.

Definition all_finite (rows : list (list num)) : Prop :=
  Forall (Forall (fun x => is_finite x = true)) rows.

(** NaN and -inf are the entries scipy rejects. *)
Definition invalid_entry (x : num) : bool :=
  match x with NaN | NInf => true | _ => false end.

Definition has_invalid (rows : list (list num)) : bool :=
  existsb (existsb invalid_entry) rows.

Definition total (l : list num) : num := fold_right num_add (Fin 0) l.

(** [cost_matrix[row_ind, col_ind].sum()] *)
Definition cost (rows : list (list num)) (row_ind col_ind : list nat) : num :=
  total
    (map (fun ij => entry rows (fst ij) (snd ij)) (combine row_ind col_ind)).

(** All lists of [k] distinct elements of [l]. *)
Fixpoint kperms (k : nat) (l : list nat) : list (list nat) :=
  match k with
  | O => [[]]
  | S k' =>
      flat_map
        (fun x => map (cons x) (kperms k' (remove Nat.eq_dec x l))) l
  end.

Fixpoint insert_by_row (p : nat * nat) (l : list (nat * nat))
  : list (nat * nat) :=
  match l with
  | [] => [p]
  | q :: l' =>
      if (fst p <=? fst q)%nat then p :: l else q :: insert_by_row p l'
  end.

Definition sort_by_row (l : list (nat * nat)) : list (nat * nat) :=
  fold_right insert_by_row [] l.

(** The first candidate of least cost. *)
Definition argmin (rows : list (list num))
  (first : list nat * list nat) (rest : list (list nat * list nat))
  : list nat * list nat :=
  fold_left
    (fun best cand =>
       if num_ltb (cost rows (fst cand) (snd cand))
                  (cost rows (fst best) (snd best))
       then cand else best)
    rest first.

Module Scipy.

(** Every complete assignment of an [n]-by-[m] matrix, as the pair
    [(row_ind, col_ind)] with [row_ind] increasing: each row gets a
    column when [n <= m], each column gets a row otherwise. *)
Definition assignments (n m : nat) : list (list nat * list nat) :=
  if (n <=? m)%nat
  then map (fun c => (seq 0 n, c)) (kperms n (seq 0 m))
  else map (fun r => List.split (sort_by_row (combine r (seq 0 m))))
           (kperms m (seq 0 n)).

(** A reference model of [scipy.optimize.linear_sum_assignment], by
    exhaustive search in exact arithmetic.  An array that cannot be cast
    to floats is refused with TypeError, a numeric array that is not
    two-dimensional with ValueError.  scipy itself finds an optimum by
    shortest augmenting paths in float64 ([Scipy64] below); the two
    agree unless several assignments have the least cost or rounding
    interferes. *)
Definition linear_sum_assignment (a : NDArray)
  : result (list nat * list nat) :=
  match a with
  | OtherArray src =>
      if numeric_dtype src then Raise ValueError else Raise TypeError
  | Matrix rows =>
      if has_invalid rows then Raise ValueError
      else
        let n := List.length rows in
        let m := List.length (hd [] rows) in
        match assignments n m with
        | [] => Ok ([], [])
        | first :: rest =>
            let best := argmin rows first rest in
            match cost rows (fst best) (snd best) with
            | Fin _ => Ok best
            | _ => Raise ValueError
            end
        end
  end.

End Scipy.

(** What the program relies on from [linear_sum_assignment]: on a square
    matrix of finite numbers it returns the rows in order and a
    permutation of the columns of least total cost; a matrix with a NaN
    or a -inf entry is refused with [ValueError].  The least-cost clause
    is stated in exact arithmetic; scipy meets it wherever rounding does
    not decide between two assignments. *)
Record lsa_contract (lsa : NDArray -> result (list nat * list nat))
  : Prop := {
  lsa_square : forall n rows,
    is_shape n n rows -> all_finite rows ->
    exists col_ind,
      lsa (Matrix rows) = Ok (seq 0 n, col_ind) /\
      Permutation col_ind (seq 0 n) /\
      forall p, Permutation p (seq 0 n) ->
        num_ltb (cost rows (seq 0 n) p)
                (cost rows (seq 0 n) col_ind) = false;
  lsa_invalid : forall rows,
    has_invalid rows = true -> lsa (Matrix rows) = Raise ValueError
}.

(** ** The solver in float64

    [scipy.optimize.linear_sum_assignment] as scipy computes it: the
    shortest augmenting path algorithm of [rectangular_lsap.cpp], on
    binary64 floats.  The arrays of the C++ code are lists here; its
    loops run on a bound that they cannot exceed. *)

Module Scipy64.

(** The float that holds a number.  Every number that is a float, as
    the entries of a numpy array are, is converted exactly. *)
Definition to_float (x : num) : float :=
  match x with
  | Fin q =>
      let den := SF2Prim (binary_normalize prec emax (Zpos (Qden q)) 0 false) in
      match Qnum q with
      | Z0 => PrimFloat.zero
      | Zpos p =>
          PrimFloat.div
            (SF2Prim (binary_normalize prec emax (Zpos p) 0 false)) den
      | Zneg p =>
          PrimFloat.opp
            (PrimFloat.div
               (SF2Prim (binary_normalize prec emax (Zpos p) 0 false)) den)
      end
  | PInf => PrimFloat.infinity
  | NInf => PrimFloat.neg_infinity
  | NaN => PrimFloat.nan
  end.

Fixpoint set_nth {A} (l : list A) (i : nat) (x : A) : list A :=
  match l, i with
  | [], _ => []
  | _ :: t, O => x :: t
  | h :: t, S i' => h :: set_nth t i' x
  end.

(** [cost[i * nc + j]] *)
Definition at_ (cost : list (list float)) (i j : nat) : float :=
  nth j (nth i cost []) PrimFloat.nan.

Definition transpose (nc : nat) (cost : list (list float))
  : list (list float) :=
  map (fun j => map (fun row => nth j row PrimFloat.nan) cost) (seq 0 nc).

(** The [for] loop of [augmenting_path] over the remaining columns. *)
Definition scan (cost : list (list float)) (u v : list float)
  (row4col : list Z) (minVal : float) (i : nat)
  (remaining : list nat) (num_remaining : nat)
  (path : list Z) (shortestPathCosts : list float)
  : list Z * list float * float * nat :=
  fold_left
    (fun st it =>
       let '(path, shortestPathCosts, lowest, index) := st in
       let j := nth it remaining O in
       let r :=
         PrimFloat.sub
           (PrimFloat.sub (PrimFloat.add minVal (at_ cost i j))
                          (nth i u PrimFloat.zero))
           (nth j v PrimFloat.zero) in
       let '(path, shortestPathCosts) :=
         if PrimFloat.ltb r (nth j shortestPathCosts PrimFloat.infinity)
         then (set_nth path j (Z.of_nat i), set_nth shortestPathCosts j r)
         else (path, shortestPathCosts) in
       let c := nth j shortestPathCosts PrimFloat.infinity in
       if PrimFloat.ltb c lowest
          || (PrimFloat.eqb c lowest && (nth j row4col (-1) =? -1)%Z)
       then (path, shortestPathCosts, c, it)
       else (path, shortestPathCosts, lowest, index))
    (seq 0 num_remaining)
    (path, shortestPathCosts, PrimFloat.infinity, O).

Record found : Type := {
  sink : nat;
  minVal : float;
  path : list Z;
  shortestPathCosts : list float;
  SR : list bool;
  SC : list bool
}.

(** The [while (sink == -1)] loop of [augmenting_path]; [None] when the
    cost matrix is infeasible. *)
Fixpoint search (bound : nat) (cost : list (list float))
  (u v : list float) (row4col : list Z) (minVal : float) (i : nat)
  (remaining : list nat) (num_remaining : nat)
  (path : list Z) (shortestPathCosts : list float) (SR SC : list bool)
  : option found :=
  match bound with
  | O => None
  | S bound' =>
      let SR := set_nth SR i true in
      let '(path, shortestPathCosts, lowest, index) :=
        scan cost u v row4col minVal i remaining num_remaining
             path shortestPathCosts in
      let minVal := lowest in
      if PrimFloat.eqb minVal PrimFloat.infinity then None
      else
        let j := nth index remaining O in
        let SC := set_nth SC j true in
        let num_remaining := pred num_remaining in
        let remaining :=
          set_nth remaining index (nth num_remaining remaining O) in
        if (nth j row4col (-1) =? -1)%Z
        then Some {| sink := j; minVal := minVal; path := path;
                     shortestPathCosts := shortestPathCosts;
                     SR := SR; SC := SC |}
        else search bound' cost u v row4col minVal
               (Z.to_nat (nth j row4col (-1)%Z))
               remaining num_remaining path shortestPathCosts SR SC
  end.

Definition augmenting_path (nr nc : nat) (cost : list (list float))
  (u v : list float) (path : list Z) (row4col : list Z) (i : nat)
  : option found :=
  search (S nc) cost u v row4col PrimFloat.zero i
    (map (fun it => (nc - it - 1)%nat) (seq 0 nc)) nc
    path (repeat PrimFloat.infinity nc)
    (repeat false nr) (repeat false nc).

(** The loop that augments the previous solution along [path]. *)
Fixpoint augment (bound : nat) (curRow : nat) (path : list Z)
  (col4row row4col : list Z) (j : Z) : list Z * list Z :=
  match bound with
  | O => (col4row, row4col)
  | S bound' =>
      let i := nth (Z.to_nat j) path (-1)%Z in
      let row4col := set_nth row4col (Z.to_nat j) i in
      let j' := nth (Z.to_nat i) col4row (-1)%Z in
      let col4row := set_nth col4row (Z.to_nat i) j in
      if (i =? Z.of_nat curRow)%Z then (col4row, row4col)
      else augment bound' curRow path col4row row4col j'
  end.

Record duals : Type := {
  u : list float;
  v : list float;
  paths : list Z;
  col4row : list Z;
  row4col : list Z
}.

(** One round of the [for curRow] loop of [solve]. *)
Definition step (nr nc : nat) (cost : list (list float))
  (st : option duals) (curRow : nat) : option duals :=
  match st with
  | None => None
  | Some d =>
      match augmenting_path nr nc cost (u d) (v d) (paths d) (row4col d)
              curRow with
      | None => None
      | Some f =>
          let u1 :=
            set_nth (u d) curRow
              (PrimFloat.add (nth curRow (u d) PrimFloat.zero) (minVal f)) in
          let u2 :=
            fold_left
              (fun u i =>
                 if nth i (SR f) false && negb (i =? curRow)%nat
                 then set_nth u i
                        (PrimFloat.add (nth i u PrimFloat.zero)
                           (PrimFloat.sub (minVal f)
                              (nth (Z.to_nat (nth i (col4row d) (-1)%Z))
                                   (shortestPathCosts f)
                                   PrimFloat.infinity)))
                 else u)
              (seq 0 nr) u1 in
          let v2 :=
            fold_left
              (fun v j =>
                 if nth j (SC f) false
                 then set_nth v j
                        (PrimFloat.sub (nth j v PrimFloat.zero)
                           (PrimFloat.sub (minVal f)
                              (nth j (shortestPathCosts f)
                                   PrimFloat.infinity)))
                 else v)
              (seq 0 nc) (v d) in
          let '(c4r, r4c) :=
            augment (S nr) curRow (path f) (col4row d) (row4col d)
                    (Z.of_nat (sink f)) in
          Some {| u := u2; v := v2; paths := path f;
                  col4row := c4r; row4col := r4c |}
      end
  end.

Inductive outcome : Type :=
| Assigned (a b : list nat)
| Invalid
| Infeasible.

Definition invalid (x : float) : bool :=
  negb (PrimFloat.eqb x x) || PrimFloat.eqb x PrimFloat.neg_infinity.

(** [solve] of [rectangular_lsap.cpp], without [maximize]. *)
Definition solve (nr nc : nat) (cost : list (list float)) : outcome :=
  if (nr =? 0)%nat || (nc =? 0)%nat then Assigned [] []
  else
    let transposed := (nc <? nr)%nat in
    let cost := if transposed then transpose nc cost else cost in
    let nr' := if transposed then nc else nr in
    let nc' := if transposed then nr else nc in
    if existsb (existsb invalid) cost then Invalid
    else
      match fold_left (step nr' nc' cost) (seq 0 nr')
              (Some {| u := repeat PrimFloat.zero nr';
                       v := repeat PrimFloat.zero nc';
                       paths := repeat (-1)%Z nc';
                       col4row := repeat (-1)%Z nr';
                       row4col := repeat (-1)%Z nc' |}) with
      | None => Infeasible
      | Some d =>
          let cols := map Z.to_nat (col4row d) in
          if transposed
          then let sorted := sort_by_row (combine cols (seq 0 nr')) in
               Assigned (map fst sorted) (map snd sorted)
          else Assigned (seq 0 nr') cols
      end.

(** The Python entry point: the array is cast to float64, must have two
    dimensions, and the outcome of [solve] is returned or raised. *)
Definition linear_sum_assignment (a : NDArray)
  : result (list nat * list nat) :=
  match a with
  | OtherArray src =>
      if numeric_dtype src then Raise ValueError else Raise TypeError
  | Matrix rows =>
      match solve (List.length rows) (List.length (hd [] rows))
                  (map (map to_float) rows) with
      | Assigned a b => Ok (a, b)
      | Invalid => Raise ValueError
      | Infeasible => Raise ValueError
      end
  end.

End Scipy64.

(** ** [os.path.splitext] (posixpath) *)

Fixpoint rfind_from (p : string) (c : ascii) (i last : Z) : Z :=
  match p with
  | EmptyString => last
  | String a p' =>
      rfind_from p' c (i + 1) (if Ascii.eqb a c then i else last)
  end.

(** [p.rfind(c)]: the index of the last [c] in [p], or -1. *)
Definition rfind (p : string) (c : ascii) : Z := rfind_from p c 0 (-1).

(** The loop of [genericpath._splitext] that skips the leading dots of the
    file name: [true] when a character other than the dot stands between
    [filenameIndex] and the last dot. *)
Fixpoint name_before_dot (p : string) (filenameIndex steps : nat) : bool :=
  match steps with
  | O => false
  | S k =>
      match String.get filenameIndex p with
      | Some "."%char => name_before_dot p (S filenameIndex) k
      | _ => true
      end
  end.

Definition splitext (p : string) : string * string :=
  let sepIndex := rfind p "/"%char in
  let dotIndex := rfind p "."%char in
  if (sepIndex <? dotIndex)%Z
     && name_before_dot p (Z.to_nat (sepIndex + 1))
          (Z.to_nat (dotIndex - (sepIndex + 1)))
  then (substring 0 (Z.to_nat dotIndex) p,
        substring (Z.to_nat dotIndex)
                  (String.length p - Z.to_nat dotIndex) p)
  else (p, EmptyString).

(** ** The world outside the program *)

Definition coord : Type := (Q * Q)%type.

(** A request URL, kept in its parts: the endpoint, the coordinates that
    are joined by ";" as "a,b" pairs, and the query string.  How a float
    prints is not modelled. *)
Record url : Type := {
  base_url : string;
  coordinates : list coord;
  query : string
}.

Record response : Type := {
  status_code : Z;
  (** the parsed body; [None] when the body is not JSON *)
  body : option json
}.

Inductive http_outcome : Type :=
| Unreachable
| Responds (r : response).

(** What folium keeps of the locations of a line after validating them:
    coordinate pairs as floats, or lines of such when the input was
    nested. *)
Inductive located : Type :=
| Point (lat lng : num)
| Line (points : list located).

(** The children of a folium map.  [folium.Map] puts the tile layer of
    its [tiles] argument (by default "OpenStreetMap") first. *)
Inductive child : Type :=
| TileLayer (tiles : string)
| PolyLine (locations : list located) (color : string) (weight : Q)
| Marker (location : coord) (tooltip : string).

Record Map : Type := {
  location : list Q;
  zoom_start : Z;
  children : list child
}.

Definition add_to (c : child) (m : Map) : Map :=
  {| location := location m;
     zoom_start := zoom_start m;
     children := children m ++ [c] |}.

Inductive level : Type := INFO | WARNING.

Record World : Type := {
  (** the routing service's answer to a GET *)
  service : url -> http_outcome;
  (** whether a path can be opened for writing *)
  writable : string -> bool;
  (** the files saved so far, latest first *)
  files : list (string * Map);
  (** the records logged so far, in order *)
  log : list (level * string)
}.

(** ** Computations in the world *)

Definition M (A : Type) : Type := World -> result A * World.

Definition ret {A} (a : A) : M A := fun w => (Ok a, w).

Definition throw {A} (e : exn) : M A := fun w => (Raise e, w).

Definition bind {A B} (c : M A) (k : A -> M B) : M B :=
  fun w =>
    match c w with
    | (Ok a, w') => k a w'
    | (Raise e, w') => (Raise e, w')
    end.

Definition lift {A} (r : result A) : M A := fun w => (r, w).

Declare Scope py_scope.
Delimit Scope py_scope with py.
Notation "x <- c ;; k" := (bind c (fun x => k))
  (at level 100, c at next level, right associativity) : py_scope.
Notation "c ;; k" := (bind c (fun _ => k))
  (at level 100, right associativity) : py_scope.

(** [requests.get(url)] *)
Definition requests_get (u : url) : M response :=
  fun w =>
    match service w u with
    | Unreachable => (Raise ConnectionError, w)
    | Responds r => (Ok r, w)
    end.

(** [response.json()] *)
Definition response_json (r : response) : result json :=
  match body r with
  | Some j => Ok j
  | None => Raise JSONDecodeError
  end.

Definition logger_emit (l : level) (msg : string) : M unit :=
  fun w =>
    (Ok tt,
     {| service := service w;
        writable := writable w;
        files := files w;
        log := log w ++ [(l, msg)] |}).

(** [route_map.save(filename)] *)
Definition save (m : Map) (filename : string) : M unit :=
  fun w =>
    if writable w filename
    then (Ok tt,
          {| service := service w;
             writable := writable w;
             files := (filename, m) :: files w;
             log := log w |})
    else (Raise OSError, w).

(** Iterating over a parsed JSON value. *)
Fixpoint chars (s : string) : list json :=
  match s with
  | EmptyString => []
  | String c s' => JStr (String c EmptyString) :: chars s'
  end.

Definition iter_json (j : json) : result (list json) :=
  match j with
  | JArr items => Ok items
  | JStr s => Ok (chars s)
  | JObj fields => Ok (map (fun kv => JStr (fst kv)) fields)
  | _ => Raise TypeError
  end.

(** [a, b = j] *)
Definition unpack2 (j : json) : result (json * json) :=
  rbind (iter_json j) (fun l =>
    match l with
    | [a; b] => Ok (a, b)
    | _ => Raise ValueError
    end).

(** ** [float(s)] on text *)

Definition is_digit (c : ascii) : bool :=
  (48 <=? nat_of_ascii c)%nat && (nat_of_ascii c <=? 57)%nat.

Definition digit_value (c : ascii) : Z := Z.of_nat (nat_of_ascii c - 48).

(** [Py_ISSPACE] *)
Definition is_space (c : ascii) : bool :=
  match nat_of_ascii c with
  | 9%nat | 10%nat | 11%nat | 12%nat | 13%nat | 32%nat => true
  | _ => false
  end.

Definition lower (c : ascii) : ascii :=
  let n := nat_of_ascii c in
  if (65 <=? n)%nat && (n <=? 90)%nat then ascii_of_nat (n + 32) else c.

(** An underscore may stand between two digits only; the text comes back
    without its underscores. *)
Fixpoint drop_underscores (prev : ascii) (s : list ascii)
  : option (list ascii) :=
  match s with
  | [] => if Ascii.eqb prev "_" then None else Some []
  | c :: s' =>
      if Ascii.eqb c "_"
      then (if is_digit prev then drop_underscores c s' else None)
      else if Ascii.eqb prev "_" && negb (is_digit c) then None
      else option_map (cons c) (drop_underscores c s')
  end.

Fixpoint drop_spaces (s : list ascii) : list ascii :=
  match s with
  | c :: s' => if is_space c then drop_spaces s' else s
  | [] => []
  end.

Definition strip (s : list ascii) : list ascii :=
  rev (drop_spaces (rev (drop_spaces s))).

(** The digits at the head of [s], added to [acc]: the value, how many
    digits were read, and the rest of the text. *)
Fixpoint take_digits (s : list ascii) (acc : Z) (n : nat)
  : Z * nat * list ascii :=
  match s with
  | c :: s' =>
      if is_digit c then take_digits s' (10 * acc + digit_value c)%Z (S n)
      else (acc, n, s)
  | [] => (acc, n, [])
  end.

Definition take_sign (s : list ascii) : bool * list ascii :=
  match s with
  | "-"%char :: s' => (true, s')
  | "+"%char :: s' => (false, s')
  | _ => (false, s)
  end.

(** A decimal number with an optional fraction and exponent. *)
Definition decimal (s : list ascii) : option Q :=
  let '(ip, ni, r1) := take_digits s 0 0 in
  let '(m, nf, r2) :=
    match r1 with
    | "."%char :: r => take_digits r ip 0
    | _ => (ip, 0%nat, r1)
    end in
  if (ni + nf =? 0)%nat then None
  else
    let scaled (e : Z) := Some (inject_Z m * 10 ^ (e - Z.of_nat nf)) in
    match r2 with
    | [] => scaled 0%Z
    | c :: r =>
        if Ascii.eqb (lower c) "e"
        then
          let '(neg, r') := take_sign r in
          match take_digits r' 0 0 with
          | (_, O, _) => None
          | (e, _, []) => scaled (if neg then (- e)%Z else e)
          | _ => None
          end
        else None
    end.

(** [float(s)]: [None] when Python raises ValueError. *)
Definition float_of_string (s : string) : option num :=
  match drop_underscores "000" (list_ascii_of_string s) with
  | None => None
  | Some t =>
      let '(neg, body) := take_sign (strip t) in
      let word := string_of_list_ascii (map lower body) in
      if String.eqb word "inf" || String.eqb word "infinity"
      then Some (if neg then NInf else PInf)
      else if String.eqb word "nan" then Some NaN
      else match decimal body with
           | Some q => Some (Fin (if neg then - q else q))
           | None => None
           end
  end.

(** [float(x)] *)
Definition py_float (x : json) : result num :=
  match x with
  | JNum v => Ok v
  | JInt z =>
      if (Z.abs z <? 2 ^ 1024)%Z then Ok (Fin (inject_Z z))
      else Raise OverflowError
  | JBool true => Ok (Fin 1)
  | JBool false => Ok (Fin 0)
  | JStr s =>
      match float_of_string s with
      | Some v => Ok v
      | None => Raise ValueError
      end
  | _ => Raise TypeError
  end.

Definition is_nan (x : num) : bool :=
  match x with NaN => true | _ => false end.

(** ** folium's checks on locations *)

(** One coordinate of [validate_location]: any failure of [float] is
    reported as ValueError, and so is a NaN. *)
Definition validate_coord (x : json) : result num :=
  match py_float x with
  | Ok v => if is_nan v then Raise ValueError else Ok v
  | Raise OverflowError => Raise OverflowError
  | Raise _ => Raise ValueError
  end.

(** [folium.utilities.validate_location]: a sized value of length two
    that can be indexed, holding two numbers. *)
Definition validate_location (location : json) : result located :=
  match location with
  | JArr [a; b] =>
      rbind (validate_coord a) (fun lat =>
      rbind (validate_coord b) (fun lng => Ok (Point lat lng)))
  | JStr (String a (String b EmptyString)) =>
      rbind (validate_coord (JStr (String a EmptyString))) (fun lat =>
      rbind (validate_coord (JStr (String b EmptyString))) (fun lng =>
        Ok (Point lat lng)))
  | JObj [_; _] => Raise TypeError
  | JArr _ | JStr _ | JObj _ => Raise ValueError
  | _ => Raise TypeError
  end.

(** The test [float(next(iter(next(iter(next(iter(locations)))))))] by
    which folium tells a list of pairs from a list of lines. *)
Inductive probe : Type :=
| Pairs
| Nested
| Fails (e : exn).

Definition first_of (x : json) : option json :=
  match iter_json x with
  | Ok (y :: _) => Some y
  | _ => None
  end.

Definition probe_locations (first : json) : probe :=
  match first_of first with
  | None => Pairs
  | Some x2 =>
      match first_of x2 with
      | None => Pairs
      | Some x3 =>
          match py_float x3 with
          | Ok _ => Nested
          | Raise TypeError => Pairs
          | Raise e => Fails e
          end
      end
  end.

(** [folium.utilities.validate_locations], with the depth of recursion
    that is left. *)
Fixpoint validate_locations (depth : nat) (locations : json)
  : result (list located) :=
  match depth with
  | O => Raise RecursionError
  | S depth' =>
      match iter_json locations with
      | Raise _ => Raise TypeError
      | Ok [] => Raise ValueError
      | Ok (first :: rest) =>
          match probe_locations first with
          | Pairs => comprehension validate_location (first :: rest)
          | Nested =>
              comprehension
                (fun lst => rbind (validate_locations depth' lst)
                              (fun l => Ok (Line l)))
                (first :: rest)
          | Fails e => Raise e
          end
      end
  end.

(** [sys.getrecursionlimit()] *)
Definition recursion_limit : nat := 1000.

(** [folium.PolyLine(locations, ...)] for a list of tuples. *)
Definition folium_PolyLine (locations : list (json * json))
  (color : string) (weight : Q) : result child :=
  rbind (validate_locations recursion_limit
           (JArr (map (fun p => JArr [fst p; snd p]) locations)))
        (fun l => Ok (PolyLine l color weight)).

(** ** The class *)

Record RouteBuilder : Type := {
  (** a dict in insertion order *)
  locations : list (string * coord)
}.

(** [f"{lng},{lat}"] for a [(lat, lng)] pair. *)
Definition swap_coord (c : coord) : coord := (snd c, fst c).

(** The [url] that [_get_distance_matrix] requests. *)
Definition table_url (locations : list (string * coord)) : url :=
  let base_url := "http://router.project-osrm.org/table/v1/driving/"%string in
  let coordinates := map (fun kv => swap_coord (snd kv)) locations in
  {| base_url := base_url;
     coordinates := coordinates;
     query := "?annotations=distance" |}.

(** The [url] that [_get_route_via_osrm] requests. *)
Definition route_url (ordered_locations : list coord) : url :=
  let base_url := "http://router.project-osrm.org/route/v1/driving/"%string in
  let coordinates := map swap_coord ordered_locations in
  {| base_url := base_url;
     coordinates := coordinates;
     query := "?overview=full&geometries=geojson" |}.

Section Methods.

Open Scope py_scope.
Open Scope string_scope.

(** [from scipy.optimize import linear_sum_assignment] *)
Variable linear_sum_assignment : NDArray -> result (list nat * list nat).

Definition _optimize_route_scipy (self : RouteBuilder)
  (distance_matrix : NDArray) : M (list nat) :=
  ind <- lift (linear_sum_assignment distance_matrix) ;;
  let row_ind := fst ind in
  let col_ind := snd ind in
  lift (comprehension
          (fun i => match nth_error row_ind i with
                    | Some r => Ok r
                    | None => Raise IndexError
                    end)
          col_ind).

Definition _get_distance_matrix (self : RouteBuilder)
  (locations : list (string * coord)) : M NDArray :=
  let url := table_url locations in
  response <- requests_get url ;;
  if negb (status_code response =? 200)%Z
  then throw (Exception_ "Failed to obtain distance matrix from OSRM")
  else
    data <- lift (response_json response) ;;
    distances <- lift (getitem_str data "distances") ;;
    lift (np_array distances).

Definition _get_route_via_osrm (self : RouteBuilder)
  (ordered_locations : list coord) : M json :=
  let url := route_url ordered_locations in
  response <- requests_get url ;;
  if negb (status_code response =? 200)%Z
  then throw (Exception_ "Failed to obtain a route from OSRM")
  else
    data <- lift (response_json response) ;;
    routes <- lift (getitem_str data "routes") ;;
    route <- lift (getitem_0 routes) ;;
    geometry <- lift (getitem_str route "geometry") ;;
    lift (getitem_str geometry "coordinates").

Definition _visualize_route (self : RouteBuilder)
  (route_coordinates : json) : M Map :=
  warehouse <- lift (match assoc "warehouse" (locations self) with
                     | Some c => Ok c
                     | None => Raise (KeyError "warehouse")
                     end) ;;
  let m := {| location := [fst warehouse; snd warehouse];
              zoom_start := 4;
              children := [TileLayer "OpenStreetMap"] |} in
  points <- lift (iter_json route_coordinates) ;;
  line <- lift (comprehension
                  (fun p => rbind (unpack2 p) (fun lng_lat =>
                              Ok (snd lng_lat, fst lng_lat)))
                  points) ;;
  polyline <- lift (folium_PolyLine line "blue" 2.5) ;;
  let m := add_to polyline m in
  ret (fold_left
         (fun m kv => add_to (Marker (snd kv) (fst kv)) m)
         (locations self) m).

(** [[list(self.locations.values())[i] for i in route_order]] *)
Definition ordered_locations (values : list coord) (route_order : list nat)
  : result (list coord) :=
  comprehension
    (fun i => match nth_error values i with
              | Some c => Ok c
              | None => Raise IndexError
              end)
    route_order.

Definition build (self : RouteBuilder) (filename : option string)
  : M unit :=
  let target_ext := ".html" in
  match filename with
  | None => throw TypeError
  | Some filename =>
      let ext := snd (splitext filename) in
      (if negb (String.eqb ext target_ext)
       then logger_emit WARNING
              ("The filename extension should be '" ++ target_ext
               ++ "', provided '" ++ ext ++ "'.")
       else ret tt) ;;
      distance_matrix <- _get_distance_matrix self (locations self) ;;
      route_order <- _optimize_route_scipy self distance_matrix ;;
      ordered <- lift (ordered_locations
                         (map snd (locations self)) route_order) ;;
      route_coordinates <- _get_route_via_osrm self ordered ;;
      route_map <- _visualize_route self route_coordinates ;;
      save route_map filename ;;
      logger_emit INFO
        ("The route is saved to a file '" ++ filename ++ "'.")
  end.

End Methods.

(** ** Vocabulary of the properties *)

Definition square (rows : list (list num)) : Prop :=
  exists n, is_shape n n rows.

(** The distance-matrix invariant: zero on the diagonal. *)
Definition zero_diagonal (n : nat) (rows : list (list num)) : Prop :=
  forall i, (i < n)%nat -> exists q, entry rows i i = Fin q /\ q == 0.

(** Positive road distances between distinct locations. *)
Definition positive_off_diagonal (n : nat) (rows : list (list num)) : Prop :=
  forall i j, (i < n)%nat -> (j < n)%nat -> i <> j ->
    exists q, entry rows i j = Fin q /\ 0 < q.

(** [col_ind], read as "row [k] gets column [col_ind[k]]", is a bijection
    between the rows and the columns of least total cost. *)
Definition min_weight_assignment (n : nat) (rows : list (list num))
  (col_ind : list nat) : Prop :=
  Permutation col_ind (seq 0 n) /\
  forall p, Permutation p (seq 0 n) ->
    num_ltb (cost rows (seq 0 n) p) (cost rows (seq 0 n) col_ind) = false.

(** The visiting order in the words of the specification: the column
    assigned to each row, read out in row order. *)
Definition column_assignment
  (lsa : NDArray -> result (list nat * list nat)) (a : NDArray)
  : result (list nat) :=
  rbind (lsa a) (fun ind => Ok (snd ind)).

(** The JSON text of a matrix. *)
Definition json_of_rows (rows : list (list num)) : json :=
  JArr (map (fun row => JArr (map JNum row)) rows).

(** The record [build] logs when the extension is not [.html]. *)
Definition extension_warning (filename : string) : level * string :=
  (WARNING,
   ("The filename extension should be '.html', provided '"
    ++ snd (splitext filename) ++ "'.")%string).

(** The record [build] logs after saving. *)
Definition saved_info (filename : string) : level * string :=
  (INFO, ("The route is saved to a file '" ++ filename ++ "'.")%string).

(** The world after the extension check of [build]. *)
Definition after_extension_check (filename : string) (w : World) : World :=
  if negb (String.eqb (snd (splitext filename)) ".html")
  then {| service := service w;
          writable := writable w;
          files := files w;
          log := log w ++ [extension_warning filename] |}
  else w.

(** Distances that are never negative. *)
Definition nonneg_entries (n : nat) (rows : list (list num)) : Prop :=
  forall i j, (i < n)%nat -> (j < n)%nat ->
    exists q, entry rows i j = Fin q /\ 0 <= q.

(** The JSON text of a list of [[lng, lat]] points. *)
Definition json_of_points (pts : list (num * num)) : json :=
  JArr (map (fun p => JArr [JNum (fst p); JNum (snd p)]) pts).

(** The line drawn through [pts], each point turned to (lat, lng). *)
Definition line_of_points (pts : list (num * num)) : list located :=
  map (fun p => Point (snd p) (fst p)) pts.

(** Points none of whose coordinates is NaN. *)
Definition no_nan (pts : list (num * num)) : Prop :=
  Forall (fun p => is_nan (fst p) = false /\ is_nan (snd p) = false) pts.

(** One marker per location, in insertion order. *)
Definition markers_of (locs : list (string * coord)) : list child :=
  map (fun kv => Marker (snd kv) (fst kv)) locs.

(** The map [_visualize_route] draws for a warehouse at [c]. *)
Definition drawn_map (self : RouteBuilder) (c : coord)
  (pts : list (num * num)) : Map :=
  {| location := [fst c; snd c];
     zoom_start := 4;
     children := TileLayer "OpenStreetMap"
                 :: PolyLine (line_of_points pts) "blue" 2.5
                 :: markers_of (locations self) |}.

(** ** Sample runs *)

Module Sample.

Open Scope string_scope.

Definition two_stops : RouteBuilder :=
  {| locations := [("warehouse", (0, 0)); ("store", (1, 1))] |}.

Definition no_warehouse : RouteBuilder :=
  {| locations := [("depot", (0, 0)); ("store", (1, 1))] |}.

Definition matrix_2x2 : list (list num) :=
  [[Fin 0; Fin 10]; [Fin 10; Fin 0]].

Definition distances_2x2 : json :=
  JArr [JArr [JNum (Fin 0); JNum (Fin 10)];
        JArr [JNum (Fin 10); JNum (Fin 0)]].

Definition geometry : json :=
  JArr [JArr [JNum (Fin 0); JNum (Fin 0)];
        JArr [JNum (Fin 0.5); JNum (Fin 0.5)];
        JArr [JNum (Fin 1); JNum (Fin 1)]].

Definition table_ok : response :=
  {| status_code := 200;
     body := Some (JObj [("code", JStr "Ok");
                         ("distances", distances_2x2)]) |}.

Definition route_ok : response :=
  {| status_code := 200;
     body := Some (JObj [("code", JStr "Ok");
                         ("routes",
                          JArr [JObj [("geometry",
                                       JObj [("coordinates", geometry);
                                             ("type", JStr "LineString")])]])])
  |}.

Definition table_1x1 : response :=
  {| status_code := 200;
     body := Some (JObj [("code", JStr "Ok");
                         ("distances", JArr [JArr [JNum (Fin 0)]])]) |}.

Definition route_empty : response :=
  {| status_code := 200;
     body := Some (JObj [("code", JStr "Ok"); ("routes", JArr [])]) |}.

(** The map of the two stops along [geometry]. *)
Definition route_map : Map :=
  {| location := [0; 0];
     zoom_start := 4;
     children :=
       [TileLayer "OpenStreetMap";
        PolyLine [Point (Fin 0) (Fin 0);
                  Point (Fin 0.5) (Fin 0.5);
                  Point (Fin 1) (Fin 1)] "blue" 2.5;
        Marker (0, 0) "warehouse";
        Marker (1, 1) "store"] |}.

Definition failing (status : Z) : response :=
  {| status_code := status; body := None |}.

(** A routing service that answers the table endpoint with [table] and
    every other endpoint with [route]. *)
Definition world (table route : response) : World :=
  {| service := fun u =>
       if String.eqb (base_url u)
            "http://router.project-osrm.org/table/v1/driving/"
       then Responds table else Responds route;
     writable := fun _ => true;
     files := [];
     log := [] |}.

End Sample.

Module MoreSamples.

Open Scope string_scope.

Definition matrix_3x3 : list (list num) :=
  [[Fin 0; Fin 5; Fin 7]; [Fin 5; Fin 0; Fin 3]; [Fin 7; Fin 3; Fin 0]].

(** An answer with one row and one column more than [Sample.two_stops]
    has locations. *)
Definition table_3x3 : response :=
  {| status_code := 200;
     body := Some (JObj [("code", JStr "Ok");
                         ("distances", json_of_rows matrix_3x3)]) |}.

Definition three_stops : RouteBuilder :=
  {| locations := [("warehouse", (0, 0)); ("store", (1, 1));
                   ("depot", (2, 2))] |}.

(** A route answer whose first point has an elevation as well. *)
Definition route_3d : response :=
  {| status_code := 200;
     body := Some (JObj [("routes",
              JArr [JObj [("geometry",
                JObj [("coordinates",
                  JArr [JArr [JNum (Fin 0); JNum (Fin 0); JNum (Fin 12)];
                        JArr [JNum (Fin 1); JNum (Fin 1)]])])]])]) |}.

(** The floats 0.1, 0.3 and 0.30000000000000004 as the exact numbers
    they are, in the matrix [[0.1, 0.3], [0.1, 0.30000000000000004]]. *)
Definition near_tie : list (list num) :=
  [[Fin (3602879701896397 # 36028797018963968);
    Fin (5404319552844595 # 18014398509481984)];
   [Fin (3602879701896397 # 36028797018963968);
    Fin (5404319552844596 # 18014398509481984)]].

(** An answer in which one distance is not a number. *)
Definition table_nan : response :=
  {| status_code := 200;
     body := Some (JObj [("code", JStr "Ok");
                         ("distances",
                          json_of_rows [[Fin 0; NaN]; [Fin 10; Fin 0]])]) |}.

End MoreSamples.

(** * Properties *)

(** ** Lists of distinct elements *)

Lemma in_kperms (k : nat) : forall (l p : list nat),
  In p (kperms k l) <->
  List.length p = k /\ NoDup p /\ incl p l.
Proof.
  induction k as [|k IH]; intros l p; simpl.
  - split.
    + intros [<-|[]]. repeat split; [constructor | intros x []].
    + intros (Hlen & _ & _). left.
      destruct p; [reflexivity | discriminate].
  - rewrite in_flat_map. split.
    + intros (x & Hx & Hp). apply in_map_iff in Hp.
      destruct Hp as (p' & <- & Hp'). apply IH in Hp'.
      destruct Hp' as (Hlen & Hnd & Hincl). repeat split.
      * simpl. now rewrite Hlen.
      * constructor; [|assumption].
        intros Hin. apply Hincl in Hin. now apply remove_In in Hin.
      * intros y [<-|Hy]; [assumption|].
        apply Hincl in Hy. now apply in_remove in Hy.
    + intros (Hlen & Hnd & Hincl).
      destruct p as [|x p']; [discriminate|].
      inversion Hnd as [|? ? Hnotin Hnd']; subst.
      exists x. split; [apply Hincl; now left|].
      apply in_map. apply IH. repeat split.
      * now injection Hlen.
      * assumption.
      * intros y Hy. apply in_in_remove.
        -- intros ->. contradiction.
        -- apply Hincl. now right.
Qed.

Lemma kperms_full_iff (n : nat) (p : list nat) :
  In p (kperms n (seq 0 n)) <-> Permutation p (seq 0 n).
Proof.
  rewrite in_kperms. split.
  - intros (Hlen & Hnd & Hincl).
    apply NoDup_Permutation_bis; try assumption.
    rewrite length_seq, Hlen. apply Nat.le_refl.
  - intros Hp. repeat split.
    + apply Permutation_length in Hp. now rewrite length_seq in Hp.
    + apply Permutation_NoDup with (l := seq 0 n);
        [now apply Permutation_sym | apply seq_NoDup].
    + intros x Hx. now apply Permutation_in with (l := p).
Qed.

Lemma perm_seq_bound (n : nat) (p : list nat) :
  Permutation p (seq 0 n) -> Forall (fun i => (i < n)%nat) p.
Proof.
  intros Hp. apply Forall_forall. intros x Hx.
  apply (Permutation_in _ Hp) in Hx. apply in_seq in Hx. lia.
Qed.

(** Two lists of one length are equal or differ at some position. *)
Lemma eq_or_differ : forall (r c : list nat),
  List.length r = List.length c ->
  r = c \/ Exists (fun ij => fst ij <> snd ij) (combine r c).
Proof.
  induction r as [|i r IH]; intros [|j c] Hlen; try discriminate.
  - now left.
  - simpl. destruct (Nat.eq_dec i j) as [->|Hne].
    + destruct (IH c) as [->|Hex]; [now injection Hlen | now left |].
      right. now apply Exists_cons_tl.
    + right. now apply Exists_cons_hd.
Qed.

(** ** Indexing the rows returned by the solver *)

Lemma comprehension_seq (n : nat) : forall (cols : list nat),
  Forall (fun i => (i < n)%nat) cols ->
  comprehension
    (fun i => match nth_error (seq 0 n) i with
              | Some r => Ok r
              | None => Raise IndexError
              end) cols = Ok cols.
Proof.
  induction cols as [|c cols IH]; intros Hb; [reflexivity|].
  inversion Hb as [|? ? Hc Hcols]; subst. simpl.
  rewrite (nth_error_nth' (seq 0 n) 0%nat) by now rewrite length_seq.
  rewrite seq_nth by assumption. simpl.
  now rewrite IH.
Qed.

Lemma comprehension_values {A} (values : list A) :
  comprehension
    (fun i => match nth_error values i with
              | Some c => Ok c
              | None => Raise IndexError
              end) (seq 0 (List.length values)) = Ok values.
Proof.
  enough (H : forall pre,
    comprehension
      (fun i => match nth_error (pre ++ values) i with
                | Some c => Ok c
                | None => Raise IndexError
                end) (seq (List.length pre) (List.length values))
    = Ok values) by exact (H []).
  induction values as [|v values IH]; intros pre; [reflexivity|].
  simpl. rewrite nth_error_app2 by apply Nat.le_refl.
  rewrite Nat.sub_diag. simpl.
  specialize (IH (pre ++ [v])).
  rewrite <- app_assoc, length_app, Nat.add_1_r in IH. simpl in IH.
  now rewrite IH.
Qed.

(** ** Sums of costs *)

Lemma total_cons x l : total (x :: l) = num_add x (total l).
Proof. reflexivity. Qed.

Lemma cost_total rows r c :
  cost rows r c =
  total (map (fun ij => entry rows (fst ij) (snd ij)) (combine r c)).
Proof. reflexivity. Qed.

Lemma total_finite (l : list num) :
  Forall (fun x => exists q, x = Fin q) l -> exists q, total l = Fin q.
Proof.
  induction 1 as [|x l (q & ->) _ (s & IH)].
  - now exists 0.
  - rewrite total_cons, IH. now exists (q + s).
Qed.

Lemma total_nonneg (l : list num) :
  Forall (fun x => exists q, x = Fin q /\ 0 <= q) l ->
  exists q, total l = Fin q /\ 0 <= q.
Proof.
  induction 1 as [|x l (q & -> & Hq) _ (s & IH & Hs)].
  - exists 0. split; [reflexivity | lra].
  - rewrite total_cons, IH. exists (q + s). split; [reflexivity | lra].
Qed.

Lemma total_zero (l : list num) :
  Forall (fun x => exists q, x = Fin q /\ q == 0) l ->
  exists q, total l = Fin q /\ q == 0.
Proof.
  induction 1 as [|x l (q & -> & Hq) _ (s & IH & Hs)].
  - exists 0. split; reflexivity.
  - rewrite total_cons, IH. exists (q + s). split; [reflexivity | lra].
Qed.

Lemma total_pos (l : list num) :
  Forall (fun x => exists q, x = Fin q /\ 0 <= q) l ->
  Exists (fun x => exists q, x = Fin q /\ 0 < q) l ->
  exists q, total l = Fin q /\ 0 < q.
Proof.
  intros Hall Hex. induction Hex as [x l (q & -> & Hq)|x l Hex IH].
  - inversion Hall as [|? ? _ Hl]; subst.
    destruct (total_nonneg _ Hl) as (s & Hs & Hs0).
    rewrite total_cons, Hs. exists (q + s).
    split; [reflexivity | lra].
  - inversion Hall as [|? ? (q & -> & Hq) Hl]; subst.
    destruct (IH Hl) as (s & Hs & Hs0).
    rewrite total_cons, Hs. exists (q + s).
    split; [reflexivity | lra].
Qed.

Lemma num_ltb_fin (a b : Q) : num_ltb (Fin a) (Fin b) = false <-> b <= a.
Proof.
  simpl. rewrite negb_false_iff. apply Qle_bool_iff.
Qed.

(** ** Entries of a well-shaped matrix *)

Lemma entry_finite n m rows i j :
  is_shape n m rows -> all_finite rows ->
  (i < n)%nat -> (j < m)%nat ->
  exists q, entry rows i j = Fin q.
Proof.
  intros [Hn Hm] Hfin Hi Hj. unfold entry.
  assert (Hrow : In (nth i rows []) rows)
    by (apply nth_In; now rewrite Hn).
  rewrite Forall_forall in Hm. specialize (Hm _ Hrow).
  unfold all_finite in Hfin. rewrite Forall_forall in Hfin.
  specialize (Hfin _ Hrow). rewrite Forall_forall in Hfin.
  assert (Hx : In (nth j (nth i rows []) NaN) (nth i rows []))
    by (apply nth_In; now rewrite Hm).
  specialize (Hfin _ Hx).
  destruct (nth j (nth i rows []) NaN); try discriminate.
  now eexists.
Qed.

Lemma all_finite_valid rows : all_finite rows -> has_invalid rows = false.
Proof.
  intros Hfin. unfold has_invalid.
  destruct (existsb (existsb invalid_entry) rows) eqn:E; [|reflexivity].
  apply existsb_exists in E. destruct E as (row & Hrow & E).
  apply existsb_exists in E. destruct E as (x & Hx & E).
  unfold all_finite in Hfin. rewrite Forall_forall in Hfin.
  specialize (Hfin _ Hrow). rewrite Forall_forall in Hfin.
  specialize (Hfin _ Hx). destruct x; discriminate.
Qed.

Lemma cost_finite n rows r c :
  is_shape n n rows -> all_finite rows ->
  Forall (fun i => (i < n)%nat) r -> Forall (fun i => (i < n)%nat) c ->
  exists q, cost rows r c = Fin q.
Proof.
  intros Hs Hfin Hr Hc. rewrite cost_total. apply total_finite.
  apply Forall_forall. intros x Hx. apply in_map_iff in Hx.
  destruct Hx as ([i j] & <- & Hij). simpl.
  rewrite Forall_forall in Hr, Hc.
  apply (entry_finite n n rows i j Hs Hfin).
  - apply Hr. eapply in_combine_l; eassumption.
  - apply Hc. eapply in_combine_r; eassumption.
Qed.

(** ** The exhaustive search returns a least-cost candidate *)

Lemma argmin_least rows : forall rest first,
  (forall c, In c (first :: rest) ->
             exists q, cost rows (fst c) (snd c) = Fin q) ->
  In (argmin rows first rest) (first :: rest) /\
  forall c, In c (first :: rest) ->
    num_ltb (cost rows (fst c) (snd c))
            (cost rows (fst (argmin rows first rest))
                       (snd (argmin rows first rest))) = false.
Proof.
  induction rest as [|x rest IH]; intros first Hfin.
  - simpl. split; [now left|]. intros c [<-|[]].
    destruct (Hfin first (or_introl eq_refl)) as (q & ->).
    apply num_ltb_fin. lra.
  - unfold argmin. simpl fold_left.
    set (b := if num_ltb (cost rows (fst x) (snd x))
                         (cost rows (fst first) (snd first))
              then x else first).
    fold (argmin rows b rest).
    assert (Hb : b = x \/ b = first)
      by (subst b; destruct (num_ltb _ _); auto).
    assert (Hfin' : forall c, In c (b :: rest) ->
                      exists q, cost rows (fst c) (snd c) = Fin q).
    { intros c [<-|Hc]; apply Hfin.
      - destruct Hb as [->| ->]; simpl; auto.
      - simpl; auto. }
    destruct (IH b Hfin') as [Hin Hmin]. split.
    + destruct Hin as [<-|Hin].
      * destruct Hb as [->| ->]; simpl; auto.
      * simpl; auto.
    + assert (Hlow : forall c, c = first \/ c = x ->
                num_ltb (cost rows (fst c) (snd c))
                        (cost rows (fst b) (snd b)) = false).
      { destruct (Hfin first) as (qf & Hqf); [simpl; auto|].
        destruct (Hfin x) as (qx & Hqx); [simpl; auto|].
        subst b. rewrite Hqx, Hqf.
        destruct (num_ltb (Fin qx) (Fin qf)) eqn:E;
          intros c [->| ->]; rewrite ?Hqx, ?Hqf.
        - simpl in E. apply negb_true_iff in E.
          apply num_ltb_fin.
          destruct (Qlt_le_dec qx qf) as [Hlt|Hle]; [lra|].
          apply Qle_bool_iff in Hle. congruence.
        - apply num_ltb_fin. lra.
        - apply num_ltb_fin. lra.
        - exact E. }
      specialize (Hmin b (or_introl eq_refl)) as Hbmin.
      destruct (Hfin' b (or_introl eq_refl)) as (qb & Hqb).
      destruct (Hfin' _ Hin) as (qm & Hqm).
      rewrite Hqb, Hqm in Hbmin. apply num_ltb_fin in Hbmin.
      intros c Hc.
      destruct (Hfin c Hc) as (qc & Hqc).
      destruct Hc as [<-|[<-|Hc]].
      * specialize (Hlow first (or_introl eq_refl)).
        rewrite Hqc, Hqb in Hlow. apply num_ltb_fin in Hlow.
        rewrite Hqc, Hqm. apply num_ltb_fin. lra.
      * specialize (Hlow x (or_intror eq_refl)).
        rewrite Hqc, Hqb in Hlow. apply num_ltb_fin in Hlow.
        rewrite Hqc, Hqm. apply num_ltb_fin. lra.
      * apply Hmin. now right.
Qed.

(** ** The reference solver meets the contract *)

Lemma square_columns n rows :
  is_shape n n rows -> List.length (hd [] rows) = List.length rows.
Proof.
  intros [Hn Hm]. destruct rows as [|r rows]; [reflexivity|].
  inversion Hm; subst. simpl in *. congruence.
Qed.

Lemma assignments_square n c :
  In c (Scipy.assignments n n) <->
  fst c = seq 0 n /\ Permutation (snd c) (seq 0 n).
Proof.
  unfold Scipy.assignments. rewrite Nat.leb_refl, in_map_iff. split.
  - intros (p & <- & Hp). simpl. split; [reflexivity|].
    now apply kperms_full_iff.
  - intros [Hr Hp]. exists (snd c). split.
    + rewrite <- Hr. now destruct c.
    + now apply kperms_full_iff.
Qed.

Lemma Scipy_contract : lsa_contract Scipy.linear_sum_assignment.
Proof.
  split.
  - intros n rows Hs Hfin. unfold Scipy.linear_sum_assignment.
    rewrite (all_finite_valid _ Hfin), (square_columns _ _ Hs).
    assert (Hn : List.length rows = n) by apply Hs. rewrite Hn.
    assert (Hcand : forall c, In c (Scipy.assignments n n) ->
                      exists q, cost rows (fst c) (snd c) = Fin q).
    { intros c Hc. apply assignments_square in Hc. destruct Hc as [-> Hp].
      apply (cost_finite n rows _ _ Hs Hfin).
      - apply perm_seq_bound. apply Permutation_refl.
      - now apply perm_seq_bound. }
    destruct (Scipy.assignments n n) as [|first rest] eqn:E.
    { exfalso.
      assert (H : In (seq 0 n, seq 0 n) (Scipy.assignments n n))
        by (apply assignments_square; split; [reflexivity|apply Permutation_refl]).
      rewrite E in H. destruct H. }
    destruct (argmin_least rows rest first Hcand) as [Hin Hmin].
    destruct (Hcand _ Hin) as (q & Hq). rewrite Hq.
    rewrite <- E in Hin. apply assignments_square in Hin.
    destruct Hin as [Hr Hp].
    exists (snd (argmin rows first rest)). repeat split.
    + rewrite <- Hr. now destruct (argmin rows first rest).
    + assumption.
    + intros p Hpp.
      assert (Hc : In (seq 0 n, p) (first :: rest)).
      { rewrite <- E. apply assignments_square. now split. }
      specialize (Hmin _ Hc). simpl in Hmin. now rewrite Hr in Hmin.
  - intros rows Hinv. simpl. now rewrite Hinv.
Qed.

(** ** The optimizer on a square matrix *)

Section Optimizer.

Variable lsa : NDArray -> result (list nat * list nat).
Hypothesis contract : lsa_contract lsa.

Lemma optimize_square self n rows w :
  is_shape n n rows -> all_finite rows ->
  exists col_ind,
    lsa (Matrix rows) = Ok (seq 0 n, col_ind) /\
    Permutation col_ind (seq 0 n) /\
    (forall p, Permutation p (seq 0 n) ->
       num_ltb (cost rows (seq 0 n) p)
               (cost rows (seq 0 n) col_ind) = false) /\
    _optimize_route_scipy lsa self (Matrix rows) w = (Ok col_ind, w).
Proof.
  intros Hs Hfin.
  destruct (lsa_square _ contract _ _ Hs Hfin) as (cols & Hl & Hp & Hmin).
  exists cols. repeat split; try assumption.
  unfold _optimize_route_scipy, bind, lift. rewrite Hl. simpl.
  now rewrite (comprehension_seq _ _ (perm_seq_bound _ _ Hp)).
Qed.

End Optimizer.

(** ** The distance-matrix invariant *)

Lemma combine_diag {A} (l : list A) (x y : A) :
  In (x, y) (combine l l) -> x = y.
Proof.
  induction l as [|a l IH]; simpl; [intros []|].
  intros [H|H]; [congruence | auto].
Qed.

Lemma distance_matrix_finite n rows :
  is_shape n n rows -> zero_diagonal n rows ->
  positive_off_diagonal n rows -> all_finite rows.
Proof.
  intros [Hn Hm] Hz Hp. apply Forall_forall. intros row Hrow.
  apply Forall_forall. intros x Hx.
  rewrite Forall_forall in Hm. pose proof (Hm _ Hrow) as Hlen.
  destruct (In_nth _ _ [] Hrow) as (i & Hi & Ei).
  destruct (In_nth _ _ NaN Hx) as (j & Hj & Ej).
  assert (E : x = entry rows i j) by (unfold entry; now rewrite Ei, Ej).
  rewrite Hn in Hi. rewrite Hlen in Hj.
  destruct (Nat.eq_dec i j) as [->|Hne].
  - destruct (Hz j Hj) as (q & Hq & _). now rewrite E, Hq.
  - destruct (Hp i j Hi Hj Hne) as (q & Hq & _). now rewrite E, Hq.
Qed.

Lemma identity_cost_zero n rows :
  zero_diagonal n rows ->
  exists q, cost rows (seq 0 n) (seq 0 n) = Fin q /\ q == 0.
Proof.
  intros Hz. rewrite cost_total. apply total_zero.
  apply Forall_forall. intros x Hx. apply in_map_iff in Hx.
  destruct Hx as ([i j] & <- & Hij). simpl.
  pose proof (combine_diag _ _ _ Hij) as <-.
  apply in_combine_l in Hij. apply in_seq in Hij.
  apply Hz. lia.
Qed.

Lemma moved_cost_positive n rows cols :
  zero_diagonal n rows -> positive_off_diagonal n rows ->
  Permutation cols (seq 0 n) ->
  Exists (fun ij => fst ij <> snd ij) (combine (seq 0 n) cols) ->
  exists q, cost rows (seq 0 n) cols = Fin q /\ 0 < q.
Proof.
  intros Hz Hp Hperm Hex.
  assert (Hb : forall i j, In (i, j) (combine (seq 0 n) cols) ->
                 (i < n)%nat /\ (j < n)%nat).
  { intros i j Hij. split.
    - apply in_combine_l in Hij. apply in_seq in Hij. lia.
    - apply in_combine_r in Hij.
      apply (Permutation_in _ Hperm) in Hij. apply in_seq in Hij. lia. }
  rewrite cost_total. apply total_pos.
  - apply Forall_forall. intros x Hx. apply in_map_iff in Hx.
    destruct Hx as ([i j] & <- & Hij). simpl.
    destruct (Hb _ _ Hij) as [Hi Hj].
    destruct (Nat.eq_dec i j) as [->|Hne].
    + destruct (Hz j Hj) as (q & Hq & Hq0). exists q. split; [easy | lra].
    + destruct (Hp i j Hi Hj Hne) as (q & Hq & Hq0).
      exists q. split; [easy | lra].
  - apply Exists_exists in Hex. destruct Hex as ([i j] & Hij & Hne).
    simpl in Hne. apply Exists_exists.
    exists (entry rows i j). split.
    + apply in_map_iff. now exists (i, j).
    + destruct (Hb _ _ Hij) as [Hi Hj]. now apply Hp.
Qed.

(** ** Claims about the route order *)








(** C9: the optimizer is deterministic.  Two runs on the same matrix, in
    any two states of the world and on any two builders, return the same
    result, and a run leaves the world as it found it. *)
Theorem optimizer_deterministic :
  forall lsa self1 self2 a w1 w2,
    fst (_optimize_route_scipy lsa self1 a w1)
    = fst (_optimize_route_scipy lsa self2 a w2) /\
    snd (_optimize_route_scipy lsa self1 a w1) = w1.
Proof.
  intros lsa self1 self2 a w1 w2.
  unfold _optimize_route_scipy, bind, lift.
  destruct (lsa a) as [[row_ind col_ind]|e]; split; reflexivity.
Qed.


Lemma no_custom_error (e : exn) :
  exn_class e <> "OptimizationError"%string /\
  exn_class e <> "RoutingServiceError"%string /\
  exn_class e <> "MalformedResponseError"%string /\
  exn_class e <> "MissingWarehouseError"%string.
Proof. destruct e; repeat split; discriminate. Qed.

(** Two more runs outside the optimizer's precondition: the 1-by-2
    matrix [[2, 1]] assigns column 1 to the only row, and [row_ind[1]]
    is out of range; a +inf entry is accepted by the solver. *)
Example non_square_index_error :
  fst (_optimize_route_scipy Scipy.linear_sum_assignment Sample.two_stops
         (Matrix [[Fin 2; Fin 1]])
         (Sample.world Sample.table_ok Sample.route_ok))
  = Raise IndexError.
Proof. reflexivity. Qed.

Example positive_infinity_accepted :
  fst (_optimize_route_scipy Scipy.linear_sum_assignment Sample.two_stops
         (Matrix [[PInf; Fin 1]; [Fin 1; PInf]])
         (Sample.world Sample.table_ok Sample.route_ok))
  = Ok [1%nat; 0%nat].
Proof. reflexivity. Qed.

(** On a 3-by-2 matrix the solver leaves row 0 out and answers
    [row_ind = [1, 2]], [col_ind = [1, 0]]; the list built by the optimizer
    is then [[2, 1]], not the column assignment. *)
Example non_square_order_is_not_col_ind :
  Scipy.linear_sum_assignment
    (Matrix [[Fin 9; Fin 9]; [Fin 9; Fin 1]; [Fin 1; Fin 9]])
  = Ok ([1%nat; 2%nat], [1%nat; 0%nat]) /\
  fst (_optimize_route_scipy Scipy.linear_sum_assignment Sample.two_stops
         (Matrix [[Fin 9; Fin 9]; [Fin 9; Fin 1]; [Fin 1; Fin 9]])
         (Sample.world Sample.table_ok Sample.route_ok))
  = Ok [2%nat; 1%nat].
Proof. split; reflexivity. Qed.



(** ** The stages of [build] read the service and change nothing *)

Lemma get_distance_matrix_frame self locs w w' :
  service w' = service w ->
  _get_distance_matrix self locs w'
  = (fst (_get_distance_matrix self locs w), w').
Proof.
  intros Hs. unfold _get_distance_matrix, bind, requests_get, throw, lift.
  rewrite Hs. destruct (service w (table_url locs)) as [|r]; [reflexivity|].
  destruct (negb (status_code r =? 200)%Z); [reflexivity|].
  destruct (response_json r) as [data|e]; [|reflexivity].
  destruct (getitem_str data "distances"); reflexivity.
Qed.

Lemma get_route_frame self ol w w' :
  service w' = service w ->
  _get_route_via_osrm self ol w'
  = (fst (_get_route_via_osrm self ol w), w').
Proof.
  intros Hs. unfold _get_route_via_osrm, bind, requests_get, throw, lift.
  rewrite Hs. destruct (service w (route_url ol)) as [|r]; [reflexivity|].
  destruct (negb (status_code r =? 200)%Z); [reflexivity|].
  destruct (response_json r) as [data|e]; [|reflexivity].
  destruct (getitem_str data "routes") as [routes|e]; [|reflexivity].
  destruct (getitem_0 routes) as [route|e]; [|reflexivity].
  destruct (getitem_str route "geometry"); reflexivity.
Qed.

Lemma optimize_frame lsa self a w w' :
  _optimize_route_scipy lsa self a w'
  = (fst (_optimize_route_scipy lsa self a w), w').
Proof.
  unfold _optimize_route_scipy, bind, lift.
  destruct (lsa a); reflexivity.
Qed.

Lemma visualize_frame self rc w w' :
  _visualize_route self rc w' = (fst (_visualize_route self rc w), w').
Proof.
  unfold _visualize_route, bind, lift, ret.
  destruct (assoc "warehouse" (locations self)); [|reflexivity].
  destruct (iter_json rc) as [points|e]; [|reflexivity].
  destruct (comprehension _ points) as [line|e]; [|reflexivity].
  destruct (folium_PolyLine line "blue" 2.5); reflexivity.
Qed.

Lemma after_extension_check_frame f w :
  service (after_extension_check f w) = service w /\
  writable (after_extension_check f w) = writable w /\
  files (after_extension_check f w) = files w.
Proof.
  unfold after_extension_check.
  destruct (negb _); repeat split; reflexivity.
Qed.

(** [build], stage by stage. *)
Lemma build_stages lsa self f w :
  build lsa self (Some f) w =
  let w1 := after_extension_check f w in
  match fst (_get_distance_matrix self (locations self) w) with
  | Raise e => (Raise e, w1)
  | Ok distance_matrix =>
  match fst (_optimize_route_scipy lsa self distance_matrix w) with
  | Raise e => (Raise e, w1)
  | Ok route_order =>
  match ordered_locations (map snd (locations self)) route_order with
  | Raise e => (Raise e, w1)
  | Ok ordered =>
  match fst (_get_route_via_osrm self ordered w) with
  | Raise e => (Raise e, w1)
  | Ok route_coordinates =>
  match fst (_visualize_route self route_coordinates w) with
  | Raise e => (Raise e, w1)
  | Ok route_map =>
      if writable w f
      then (Ok tt,
            {| service := service w;
               writable := writable w;
               files := (f, route_map) :: files w;
               log := log w1 ++ [saved_info f] |})
      else (Raise OSError, w1)
  end end end end end.
Proof.
  destruct (after_extension_check_frame f w) as (Hs & Hw & Hf).
  assert (E : build lsa self (Some f) w =
    bind (_get_distance_matrix self (locations self)) (fun distance_matrix =>
    bind (_optimize_route_scipy lsa self distance_matrix) (fun route_order =>
    bind (lift (ordered_locations (map snd (locations self)) route_order))
      (fun ordered =>
    bind (_get_route_via_osrm self ordered) (fun route_coordinates =>
    bind (_visualize_route self route_coordinates) (fun route_map =>
    bind (save route_map f) (fun _ =>
    logger_emit INFO (snd (saved_info f))))))))
    (after_extension_check f w)).
  { unfold build, after_extension_check, extension_warning.
    unfold bind at 1.
    destruct (negb (String.eqb (snd (splitext f)) ".html")); reflexivity. }
  rewrite E. clear E. cbv zeta.
  set (w1 := after_extension_check f w) in *.
  unfold bind at 1.
  rewrite (get_distance_matrix_frame self _ w w1 Hs).
  destruct (fst (_get_distance_matrix self (locations self) w))
    as [dm|e]; [|reflexivity].
  unfold bind at 1. rewrite (optimize_frame lsa self dm w w1).
  destruct (fst (_optimize_route_scipy lsa self dm w))
    as [order|e]; [|reflexivity].
  unfold bind at 1. unfold lift at 1.
  destruct (ordered_locations (map snd (locations self)) order)
    as [ol|e]; [|reflexivity].
  unfold bind at 1. rewrite (get_route_frame self ol w w1 Hs).
  destruct (fst (_get_route_via_osrm self ol w)) as [rc|e]; [|reflexivity].
  unfold bind at 1. rewrite (visualize_frame self rc w w1).
  destruct (fst (_visualize_route self rc w)) as [m|e]; [|reflexivity].
  unfold bind, save, logger_emit. cbv beta.
  replace (writable w1 f) with (writable w f) by now rewrite Hw.
  destruct (writable w f); [|reflexivity].
  simpl. now rewrite Hs, Hw, Hf.
Qed.

(** ** [np.array] on the JSON text of a matrix *)

Lemma all_some_map {A B} (f : A -> option B) (g : A -> B) (l : list A) :
  (forall x, f x = Some (g x)) -> all_some (map f l) = Some (map g l).
Proof.
  intros H. induction l as [|x l IH]; [reflexivity|].
  simpl. now rewrite H, IH.
Qed.

Lemma shape_of_JArr items :
  shape_of (JArr items) =
  match map shape_of items with
  | [] => Some [0%nat]
  | None :: _ => None
  | Some s :: ss =>
      if forallb (fun o => match o with
                           | Some s' =>
                               if list_eq_dec Nat.eq_dec s s'
                               then true else false
                           | None => false
                           end) ss
      then Some (S (List.length ss) :: s)
      else None
  end.
Proof. reflexivity. Qed.

Lemma same_shape_all {A} (s : list nat) (l : list A) :
  forallb (fun o => match o with
                    | Some s' =>
                        if list_eq_dec Nat.eq_dec s s' then true else false
                    | None => false
                    end) (map (fun _ => Some s) l) = true.
Proof.
  induction l as [|x l IH]; [reflexivity|].
  simpl. rewrite IH. now destruct (list_eq_dec Nat.eq_dec s s).
Qed.

Lemma shape_of_row (row : list num) :
  shape_of (JArr (map JNum row)) = Some [List.length row].
Proof.
  rewrite shape_of_JArr, map_map.
  destruct row as [|x row]; [reflexivity|].
  cbn [map shape_of]. rewrite same_shape_all. now rewrite length_map.
Qed.

Lemma floats_fit (rows : list (list num)) :
  ints_fit (JArr (map (fun row => JArr (map JNum row)) rows)) = true.
Proof.
  cbn [ints_fit]. apply forallb_forall. intros item Hitem.
  apply in_map_iff in Hitem. destruct Hitem as (row & <- & _).
  cbn [ints_fit]. apply forallb_forall. intros x Hx.
  apply in_map_iff in Hx. now destruct Hx as (v & <- & _).
Qed.

Lemma np_array_rows r c rows :
  is_shape (S r) c rows -> np_array (json_of_rows rows) = Ok (Matrix rows).
Proof.
  intros [Hr Hc]. unfold np_array, json_of_rows.
  assert (Hshape :
    shape_of (JArr (map (fun row => JArr (map JNum row)) rows))
    = Some [S r; c]).
  { rewrite shape_of_JArr, map_map.
    rewrite (map_ext_in _ (fun _ => Some [c])).
    - destruct rows as [|row rows]; [discriminate|].
      cbn [map]. rewrite same_shape_all, length_map.
      simpl in Hr. now injection Hr as ->.
    - intros row Hrow. rewrite shape_of_row.
      rewrite Forall_forall in Hc. now rewrite (Hc _ Hrow). }
  rewrite Hshape.
  assert (Hrows :
    as_rows (JArr (map (fun row => JArr (map JNum row)) rows)) = Some rows).
  { unfold as_rows. rewrite map_map.
    rewrite (all_some_map _ (fun row => row)).
    - now rewrite map_id.
    - intros row. unfold as_row. rewrite map_map.
      rewrite (all_some_map _ (fun x => x)); [now rewrite map_id | reflexivity]. }
  rewrite Hrows, floats_fit. now rewrite orb_true_r.
Qed.

(** ** Claims about failures *)

(** C5 fails as stated: when the distance service answers 500 the build
    raises a plain [Exception], not a RoutingServiceError. *)
Lemma status_500_is_plain_exception :
  service (Sample.world (Sample.failing 500) Sample.route_ok)
    (table_url (locations Sample.two_stops))
  = Responds (Sample.failing 500) /\
  build Scipy.linear_sum_assignment Sample.two_stops
    (Some "optimized_route.html"%string)
    (Sample.world (Sample.failing 500) Sample.route_ok)
  = (Raise (Exception_ "Failed to obtain distance matrix from OSRM"),
     Sample.world (Sample.failing 500) Sample.route_ok) /\
  ~ raises
      (fst (build Scipy.linear_sum_assignment Sample.two_stops
              (Some "optimized_route.html"%string)
              (Sample.world (Sample.failing 500) Sample.route_ok)))
      "RoutingServiceError".
Proof.
  split; [reflexivity | split; [reflexivity|]].
  intros (e & He & Hc). now apply no_custom_error in Hc.
Qed.

(** C5, amended: when the distance call or the route call is answered
    with a status other than 200, [build] raises a plain [Exception]
    carrying the message of the failed call, and every [build] that
    raises leaves the saved files as they were. *)
Theorem non_200_aborts_build :
  forall lsa self f w,
    (forall r,
       service w (table_url (locations self)) = Responds r ->
       status_code r <> 200%Z ->
       build lsa self (Some f) w
       = (Raise (Exception_ "Failed to obtain distance matrix from OSRM"),
          after_extension_check f w)) /\
    (forall distance_matrix route_order ordered r,
       fst (_get_distance_matrix self (locations self) w)
       = Ok distance_matrix ->
       fst (_optimize_route_scipy lsa self distance_matrix w)
       = Ok route_order ->
       ordered_locations (map snd (locations self)) route_order
       = Ok ordered ->
       service w (route_url ordered) = Responds r ->
       status_code r <> 200%Z ->
       build lsa self (Some f) w
       = (Raise (Exception_ "Failed to obtain a route from OSRM"),
          after_extension_check f w)) /\
    (forall filename e w',
       build lsa self filename w = (Raise e, w') -> files w' = files w).
Proof.
  intros lsa self f w. split; [|split].
  - intros r Hr Hst. rewrite build_stages. cbv zeta.
    unfold _get_distance_matrix, bind, requests_get. rewrite Hr.
    apply Z.eqb_neq in Hst. now rewrite Hst.
  - intros dm order ol r Hdm Hord Hol Hr Hst.
    rewrite build_stages. cbv zeta. rewrite Hdm, Hord, Hol.
    unfold _get_route_via_osrm, bind, requests_get. rewrite Hr.
    apply Z.eqb_neq in Hst. now rewrite Hst.
  - intros [f'|] e w' Hb.
    + rewrite build_stages in Hb. cbv zeta in Hb.
      destruct (after_extension_check_frame f' w) as (_ & _ & Hf).
      destruct (fst (_get_distance_matrix self (locations self) w))
        as [dm|]; [|injection Hb as _ <-; exact Hf].
      destruct (fst (_optimize_route_scipy lsa self dm w))
        as [order|]; [|injection Hb as _ <-; exact Hf].
      destruct (ordered_locations (map snd (locations self)) order)
        as [ol|]; [|injection Hb as _ <-; exact Hf].
      destruct (fst (_get_route_via_osrm self ol w))
        as [rc|]; [|injection Hb as _ <-; exact Hf].
      destruct (fst (_visualize_route self rc w))
        as [m|]; [|injection Hb as _ <-; exact Hf].
      destruct (writable w f'); [discriminate|].
      injection Hb as _ <-; exact Hf.
    + injection Hb as _ <-. reflexivity.
Qed.

Lemma non_200_aborts_build_witness :
  build Scipy.linear_sum_assignment Sample.two_stops
    (Some "route.json"%string)
    (Sample.world (Sample.failing 500) Sample.route_ok)
  = (Raise (Exception_ "Failed to obtain distance matrix from OSRM"),
     after_extension_check "route.json"
       (Sample.world (Sample.failing 500) Sample.route_ok)) /\
  build Scipy.linear_sum_assignment Sample.two_stops
    (Some "route.json"%string)
    (Sample.world Sample.table_ok (Sample.failing 404))
  = (Raise (Exception_ "Failed to obtain a route from OSRM"),
     after_extension_check "route.json"
       (Sample.world Sample.table_ok (Sample.failing 404))).
Proof.
  split.
  - apply (non_200_aborts_build Scipy.linear_sum_assignment Sample.two_stops
             "route.json" _) with (r := Sample.failing 500).
    + reflexivity.
    + discriminate.
  - apply (non_200_aborts_build Scipy.linear_sum_assignment Sample.two_stops
             "route.json" _)
      with (distance_matrix := Matrix Sample.matrix_2x2)
           (route_order := [0%nat; 1%nat])
           (ordered := [(0, 0); (1, 1)])
           (r := Sample.failing 404).
    + reflexivity.
    + reflexivity.
    + reflexivity.
    + reflexivity.
    + discriminate.
Defined.

(** C6 fails as stated: for two locations and a service that answers
    with a 1-by-1 [distances] array, [_get_distance_matrix] returns that
    1-by-1 matrix and raises nothing. *)
Lemma one_by_one_matrix_for_two_locations :
  List.length (locations Sample.two_stops) = 2%nat /\
  _get_distance_matrix Sample.two_stops (locations Sample.two_stops)
    (Sample.world Sample.table_1x1 Sample.route_ok)
  = (Ok (Matrix [[Fin 0]]), Sample.world Sample.table_1x1 Sample.route_ok) /\
  is_shape 1 1 [[Fin 0]] /\
  ~ raises
      (fst (_get_distance_matrix Sample.two_stops
              (locations Sample.two_stops)
              (Sample.world Sample.table_1x1 Sample.route_ok)))
      "MalformedResponseError".
Proof.
  split; [reflexivity | split; [reflexivity | split]].
  - split; [reflexivity | repeat constructor].
  - intros (e & He & _). discriminate.
Qed.

(** C6, amended: on a 200 answer whose JSON object has a [distances]
    field, [_get_distance_matrix] returns [np.array] of that field
    without comparing its shape with the number of locations, so an
    r-by-c array of numbers comes back as an r-by-c matrix; when the
    field is absent it raises KeyError.  It never raises
    MalformedResponseError. *)
Theorem distance_matrix_unchecked :
  forall self locs w r fields,
    service w (table_url locs) = Responds r ->
    status_code r = 200%Z ->
    body r = Some (JObj fields) ->
    (assoc "distances"%string fields = None ->
     _get_distance_matrix self locs w
     = (Raise (KeyError "distances"), w)) /\
    (forall j,
       assoc "distances"%string fields = Some j ->
       _get_distance_matrix self locs w = (np_array j, w)) /\
    (forall n m rows,
       is_shape (S n) m rows ->
       assoc "distances"%string fields = Some (json_of_rows rows) ->
       _get_distance_matrix self locs w = (Ok (Matrix rows), w)) /\
    ~ raises (fst (_get_distance_matrix self locs w))
        "MalformedResponseError".
Proof.
  intros self locs w r fields Hr Hst Hbody.
  assert (Hrun : _get_distance_matrix self locs w =
                 (rbind (getitem_str (JObj fields) "distances") np_array, w)).
  { unfold _get_distance_matrix, bind, requests_get, lift, response_json.
    rewrite Hr, Hst, Hbody. simpl.
    destruct (assoc "distances"%string fields); reflexivity. }
  rewrite Hrun. simpl. repeat split.
  - now intros ->.
  - now intros j ->.
  - intros n m rows Hs ->. simpl. now rewrite (np_array_rows n m rows Hs).
  - intros (e & _ & He). now apply no_custom_error in He.
Qed.

Lemma distance_matrix_unchecked_witness :
  _get_distance_matrix Sample.two_stops (locations Sample.two_stops)
    (Sample.world Sample.table_ok Sample.route_ok)
  = (Ok (Matrix Sample.matrix_2x2),
     Sample.world Sample.table_ok Sample.route_ok).
Proof.
  apply (distance_matrix_unchecked Sample.two_stops
           (locations Sample.two_stops)
           (Sample.world Sample.table_ok Sample.route_ok)
           Sample.table_ok
           [("code"%string, JStr "Ok");
            ("distances"%string, Sample.distances_2x2)]
           eq_refl eq_refl eq_refl) with (n := 1%nat) (m := 2%nat).
  - split; [reflexivity | repeat constructor].
  - reflexivity.
Defined.

(** C7 fails as stated: on a 200 answer whose [routes] array is empty,
    [_get_route_via_osrm] raises IndexError, not MalformedResponseError. *)
Lemma empty_routes_is_index_error :
  _get_route_via_osrm Sample.two_stops [(0, 0); (1, 1)]
    (Sample.world Sample.table_ok Sample.route_empty)
  = (Raise IndexError, Sample.world Sample.table_ok Sample.route_empty) /\
  ~ raises
      (fst (_get_route_via_osrm Sample.two_stops [(0, 0); (1, 1)]
              (Sample.world Sample.table_ok Sample.route_empty)))
      "MalformedResponseError".
Proof.
  split; [reflexivity|].
  intros (e & He & Hc). now apply no_custom_error in Hc.
Qed.

(** C7, amended: on a 200 answer that is a JSON object,
    [_get_route_via_osrm] fails with KeyError when the [routes] field,
    the first route's [geometry] field or the geometry's [coordinates]
    field is missing, and with IndexError when the [routes] array is
    empty.  It never raises MalformedResponseError. *)
Theorem route_geometry_failures :
  forall self ordered w r fields,
    service w (route_url ordered) = Responds r ->
    status_code r = 200%Z ->
    body r = Some (JObj fields) ->
    (assoc "routes"%string fields = None ->
     _get_route_via_osrm self ordered w = (Raise (KeyError "routes"), w)) /\
    (assoc "routes"%string fields = Some (JArr []) ->
     _get_route_via_osrm self ordered w = (Raise IndexError, w)) /\
    (forall route others,
       assoc "routes"%string fields = Some (JArr (JObj route :: others)) ->
       assoc "geometry"%string route = None ->
       _get_route_via_osrm self ordered w
       = (Raise (KeyError "geometry"), w)) /\
    (forall route others geometry,
       assoc "routes"%string fields = Some (JArr (JObj route :: others)) ->
       assoc "geometry"%string route = Some (JObj geometry) ->
       assoc "coordinates"%string geometry = None ->
       _get_route_via_osrm self ordered w
       = (Raise (KeyError "coordinates"), w)) /\
    ~ raises (fst (_get_route_via_osrm self ordered w))
        "MalformedResponseError".
Proof.
  intros self ordered w r fields Hr Hst Hbody.
  assert (Hrun : _get_route_via_osrm self ordered w =
    (rbind (getitem_str (JObj fields) "routes") (fun routes =>
     rbind (getitem_0 routes) (fun route =>
     rbind (getitem_str route "geometry") (fun geometry =>
     getitem_str geometry "coordinates"))), w)).
  { unfold _get_route_via_osrm, bind, requests_get, lift, response_json.
    rewrite Hr, Hst, Hbody. simpl.
    destruct (assoc "routes"%string fields) as [routes|]; [|reflexivity].
    simpl. destruct (getitem_0 routes) as [route|]; [|reflexivity].
    simpl. destruct (getitem_str route "geometry"); reflexivity. }
  rewrite Hrun. simpl. repeat split.
  - now intros ->.
  - now intros ->.
  - intros route others ->. simpl. now intros ->.
  - intros route others geometry ->. simpl. intros ->. simpl. now intros ->.
  - intros (e & _ & He). now apply no_custom_error in He.
Qed.

Lemma route_geometry_failures_witness :
  _get_route_via_osrm Sample.two_stops [(0, 0); (1, 1)]
    (Sample.world Sample.table_ok Sample.route_empty)
  = (Raise IndexError, Sample.world Sample.table_ok Sample.route_empty).
Proof.
  apply (route_geometry_failures Sample.two_stops [(0, 0); (1, 1)]
           (Sample.world Sample.table_ok Sample.route_empty)
           Sample.route_empty
           [("code"%string, JStr "Ok"); ("routes"%string, JArr [])]
           eq_refl eq_refl eq_refl).
  reflexivity.
Defined.

(** C8 fails as stated: without a "warehouse" key the renderer, and the
    build that reaches it, raise KeyError, not MissingWarehouseError. *)
Lemma missing_warehouse_is_key_error :
  assoc "warehouse"%string (locations Sample.no_warehouse) = None /\
  _visualize_route Sample.no_warehouse Sample.geometry
    (Sample.world Sample.table_ok Sample.route_ok)
  = (Raise (KeyError "warehouse"),
     Sample.world Sample.table_ok Sample.route_ok) /\
  fst (build Scipy.linear_sum_assignment Sample.no_warehouse
         (Some "optimized_route.html"%string)
         (Sample.world Sample.table_ok Sample.route_ok))
  = Raise (KeyError "warehouse") /\
  ~ raises
      (fst (build Scipy.linear_sum_assignment Sample.no_warehouse
              (Some "optimized_route.html"%string)
              (Sample.world Sample.table_ok Sample.route_ok)))
      "MissingWarehouseError".
Proof.
  split; [reflexivity | split; [reflexivity | split; [reflexivity|]]].
  intros (e & He & Hc). now apply no_custom_error in Hc.
Qed.

(** C8, amended: when the key "warehouse" is absent from the locations,
    [_visualize_route] raises KeyError for that key before it draws
    anything, and a [build] whose earlier stages succeed raises the same
    KeyError and saves no file. *)
Theorem missing_warehouse_key_error :
  forall self,
    assoc "warehouse"%string (locations self) = None ->
    (forall route_coordinates w,
       _visualize_route self route_coordinates w
       = (Raise (KeyError "warehouse"), w)) /\
    (forall lsa f w distance_matrix route_order ordered route_coordinates,
       fst (_get_distance_matrix self (locations self) w)
       = Ok distance_matrix ->
       fst (_optimize_route_scipy lsa self distance_matrix w)
       = Ok route_order ->
       ordered_locations (map snd (locations self)) route_order
       = Ok ordered ->
       fst (_get_route_via_osrm self ordered w) = Ok route_coordinates ->
       build lsa self (Some f) w
       = (Raise (KeyError "warehouse"), after_extension_check f w) /\
       files (snd (build lsa self (Some f) w)) = files w).
Proof.
  intros self Hno.
  assert (Hvis : forall rc w,
            _visualize_route self rc w = (Raise (KeyError "warehouse"), w)).
  { intros rc w. unfold _visualize_route, bind, lift. now rewrite Hno. }
  split; [exact Hvis|].
  intros lsa f w dm order ol rc Hdm Hord Hol Hrc.
  rewrite build_stages. cbv zeta.
  rewrite Hdm, Hord, Hol, Hrc, Hvis. simpl.
  split; [reflexivity | apply after_extension_check_frame].
Qed.

Lemma missing_warehouse_key_error_witness :
  _visualize_route Sample.no_warehouse Sample.geometry
    (Sample.world Sample.table_ok Sample.route_ok)
  = (Raise (KeyError "warehouse"),
     Sample.world Sample.table_ok Sample.route_ok).
Proof.
  apply (missing_warehouse_key_error Sample.no_warehouse).
  reflexivity.
Defined.

(** ** The extension check *)

(** C10: when the extension of the output filename is not ".html",
    [build] logs the warning first and goes on: if the stages succeed and
    the path can be written, the map is saved under that very filename
    and the log gains the warning followed by the record of the save. *)
Theorem non_html_extension_still_saves :
  forall lsa self f w,
    snd (splitext f) <> ".html"%string ->
    (exists rest,
       log (snd (build lsa self (Some f) w))
       = log w ++ extension_warning f :: rest) /\
    (forall distance_matrix route_order ordered route_coordinates route_map,
       fst (_get_distance_matrix self (locations self) w)
       = Ok distance_matrix ->
       fst (_optimize_route_scipy lsa self distance_matrix w)
       = Ok route_order ->
       ordered_locations (map snd (locations self)) route_order
       = Ok ordered ->
       fst (_get_route_via_osrm self ordered w) = Ok route_coordinates ->
       fst (_visualize_route self route_coordinates w) = Ok route_map ->
       writable w f = true ->
       exists w',
         build lsa self (Some f) w = (Ok tt, w') /\
         files w' = (f, route_map) :: files w /\
         log w' = log w ++ [extension_warning f; saved_info f]).
Proof.
  intros lsa self f w Hext.
  assert (Hw1 : log (after_extension_check f w)
                = log w ++ [extension_warning f]).
  { unfold after_extension_check.
    apply String.eqb_neq in Hext. now rewrite Hext. }
  split.
  - rewrite build_stages. cbv zeta.
    destruct (fst (_get_distance_matrix self (locations self) w))
      as [dm|]; [|exists []; exact Hw1].
    destruct (fst (_optimize_route_scipy lsa self dm w))
      as [order|]; [|exists []; exact Hw1].
    destruct (ordered_locations (map snd (locations self)) order)
      as [ol|]; [|exists []; exact Hw1].
    destruct (fst (_get_route_via_osrm self ol w))
      as [rc|]; [|exists []; exact Hw1].
    destruct (fst (_visualize_route self rc w))
      as [m|]; [|exists []; exact Hw1].
    destruct (writable w f); [|exists []; exact Hw1].
    exists [saved_info f]. simpl. rewrite Hw1.
    now rewrite <- app_assoc.
  - intros dm order ol rc m Hdm Hord Hol Hrc Hm Hwr.
    rewrite build_stages. cbv zeta.
    rewrite Hdm, Hord, Hol, Hrc, Hm, Hwr.
    eexists. split; [reflexivity|]. simpl. split; [reflexivity|].
    rewrite Hw1. now rewrite <- app_assoc.
Qed.

Lemma non_html_extension_still_saves_witness :
  exists w',
    build Scipy.linear_sum_assignment Sample.two_stops
      (Some "route.json"%string)
      (Sample.world Sample.table_ok Sample.route_ok)
    = (Ok tt, w') /\
    files w' = [("route.json"%string, Sample.route_map)] /\
    log w' = [extension_warning "route.json"; saved_info "route.json"].
Proof.
  assert (Hext : snd (splitext "route.json") <> ".html"%string)
    by (intros H; vm_compute in H; discriminate).
  apply (non_html_extension_still_saves Scipy.linear_sum_assignment
           Sample.two_stops "route.json"
           (Sample.world Sample.table_ok Sample.route_ok) Hext)
    with (distance_matrix := Matrix Sample.matrix_2x2)
         (route_order := [0%nat; 1%nat])
         (ordered := [(0, 0); (1, 1)])
         (route_coordinates := Sample.geometry);
    reflexivity.
Defined.

(** * Further properties of the methods *)

(** ** Indexing by position *)

Lemma comprehension_nth_ok {A} (xs : list A) (d : A) (idx : list nat) :
  Forall (fun i => (i < List.length xs)%nat) idx ->
  comprehension
    (fun i => match nth_error xs i with
              | Some x => Ok x
              | None => Raise IndexError
              end) idx
  = Ok (map (fun i => nth i xs d) idx).
Proof.
  induction 1 as [|i idx Hi _ IH]; [reflexivity|].
  simpl. rewrite (nth_error_nth' xs d Hi). simpl. now rewrite IH.
Qed.

Lemma comprehension_nth_out {A} (xs : list A) (idx : list nat) :
  Exists (fun i => (List.length xs <= i)%nat) idx ->
  comprehension
    (fun i => match nth_error xs i with
              | Some x => Ok x
              | None => Raise IndexError
              end) idx
  = Raise IndexError.
Proof.
  induction idx as [|i idx IH]; intros Hex; [inversion Hex|].
  simpl. destruct (nth_error xs i) as [x|] eqn:E; [|reflexivity].
  simpl. inversion Hex as [? ? Hi|? ? Htl]; subst.
  - apply nth_error_None in Hi. congruence.
  - now rewrite (IH Htl).
Qed.

Lemma nth_seq_firstn {A} (d : A) : forall (values : list A) (m : nat),
  (m <= List.length values)%nat ->
  map (fun i => nth i values d) (seq 0 m) = firstn m values.
Proof.
  induction values as [|v values IH]; intros [|m] Hm;
    try reflexivity; simpl in Hm; [lia|].
  cbn [seq map firstn nth]. f_equal.
  rewrite <- seq_shift, map_map. apply IH. lia.
Qed.

(** X1: the list [[row_ind[i] for i in col_ind]] holds, for each assigned
    column in turn, the row found at that position of [row_ind]; a column
    index past the end of [row_ind] makes the optimizer raise IndexError. *)
Theorem optimizer_indexes_rows :
  forall lsa self a w row_ind col_ind,
    lsa a = Ok (row_ind, col_ind) ->
    (Forall (fun i => (i < List.length row_ind)%nat) col_ind ->
     _optimize_route_scipy lsa self a w
     = (Ok (map (fun i => nth i row_ind 0%nat) col_ind), w)) /\
    (Exists (fun i => (List.length row_ind <= i)%nat) col_ind ->
     _optimize_route_scipy lsa self a w = (Raise IndexError, w)).
Proof.
  intros lsa self a w row_ind col_ind Hl.
  unfold _optimize_route_scipy, bind, lift. rewrite Hl. simpl. split.
  - intros Hin. now rewrite (comprehension_nth_ok row_ind 0%nat col_ind Hin).
  - intros Hout. now rewrite (comprehension_nth_out row_ind col_ind Hout).
Qed.

Lemma optimizer_indexes_rows_witness :
  _optimize_route_scipy Scipy.linear_sum_assignment Sample.two_stops
    (Matrix [[Fin 9; Fin 9]; [Fin 9; Fin 1]; [Fin 1; Fin 9]])
    (Sample.world Sample.table_ok Sample.route_ok)
  = (Ok (map (fun i => nth i [1%nat; 2%nat] 0%nat) [1%nat; 0%nat]),
     Sample.world Sample.table_ok Sample.route_ok) /\
  _optimize_route_scipy Scipy.linear_sum_assignment Sample.two_stops
    (Matrix [[Fin 2; Fin 1]])
    (Sample.world Sample.table_ok Sample.route_ok)
  = (Raise IndexError, Sample.world Sample.table_ok Sample.route_ok).
Proof.
  split.
  - apply (optimizer_indexes_rows Scipy.linear_sum_assignment
             Sample.two_stops
             (Matrix [[Fin 9; Fin 9]; [Fin 9; Fin 1]; [Fin 1; Fin 9]])
             (Sample.world Sample.table_ok Sample.route_ok)
             [1%nat; 2%nat] [1%nat; 0%nat]).
    + reflexivity.
    + repeat constructor.
  - apply (optimizer_indexes_rows Scipy.linear_sum_assignment
             Sample.two_stops (Matrix [[Fin 2; Fin 1]])
             (Sample.world Sample.table_ok Sample.route_ok)
             [0%nat] [1%nat]).
    + reflexivity.
    + apply Exists_cons_hd. simpl. lia.
Defined.

(** ** Where the optimizer can move a location *)

Lemma entries_all_finite n rows :
  is_shape n n rows ->
  (forall i j, (i < n)%nat -> (j < n)%nat -> exists q, entry rows i j = Fin q) ->
  all_finite rows.
Proof.
  intros [Hn Hm] He. apply Forall_forall. intros row Hrow.
  apply Forall_forall. intros x Hx.
  rewrite Forall_forall in Hm. pose proof (Hm _ Hrow) as Hlen.
  destruct (In_nth _ _ [] Hrow) as (i & Hi & Ei).
  destruct (In_nth _ _ NaN Hx) as (j & Hj & Ej).
  assert (E : x = entry rows i j) by (unfold entry; now rewrite Ei, Ej).
  rewrite Hn in Hi. rewrite Hlen in Hj.
  destruct (He i j Hi Hj) as (q & Hq). now rewrite E, Hq.
Qed.

Lemma total_zero_inv (l : list num) :
  Forall (fun x => exists q, x = Fin q /\ 0 <= q) l ->
  forall s, total l = Fin s -> s <= 0 ->
  Forall (fun x => exists q, x = Fin q /\ q == 0) l.
Proof.
  induction 1 as [|x l (q & -> & Hq) Hl IH]; intros s Hs Hs0;
    [constructor|].
  destruct (total_nonneg l Hl) as (t & Ht & Ht0).
  rewrite total_cons, Ht in Hs. simpl in Hs. injection Hs as <-.
  constructor.
  - exists q. split; [reflexivity | lra].
  - apply (IH t Ht). lra.
Qed.

Lemma pair_in_combine_seq n (cols : list nat) i :
  List.length cols = n -> (i < n)%nat ->
  In (i, nth i cols 0%nat) (combine (seq 0 n) cols).
Proof.
  intros Hlen Hi.
  assert (E : nth i (combine (seq 0 n) cols) (0%nat, 0%nat)
              = (i, nth i cols 0%nat)).
  { rewrite combine_nth by now rewrite length_seq.
    now rewrite seq_nth. }
  rewrite <- E. apply nth_In.
  rewrite length_combine, length_seq, Hlen. lia.
Qed.



(** ** Which locations the route goes through *)

Lemma reorder_prefix (values : list coord) (m : nat) (order : list nat) :
  (m <= List.length values)%nat ->
  Permutation order (seq 0 m) ->
  exists ordered,
    ordered_locations values order = Ok ordered /\
    Permutation ordered (firstn m values).
Proof.
  intros Hm Hp. pose (d := ((0, 0) : coord)).
  exists (map (fun i => nth i values d) order). split.
  - unfold ordered_locations. apply comprehension_nth_ok.
    apply Forall_forall. intros i Hi.
    apply (Permutation_in _ Hp) in Hi. apply in_seq in Hi. lia.
  - rewrite <- (nth_seq_firstn d values m Hm).
    now apply Permutation_map.
Qed.





(** ** The route request, when it succeeds *)

Lemma get_route_ok self ordered w r fields route others geometry coords :
  service w (route_url ordered) = Responds r ->
  status_code r = 200%Z ->
  body r = Some (JObj fields) ->
  assoc "routes"%string fields = Some (JArr (JObj route :: others)) ->
  assoc "geometry"%string route = Some (JObj geometry) ->
  assoc "coordinates"%string geometry = Some coords ->
  _get_route_via_osrm self ordered w = (Ok coords, w).
Proof.
  intros Hr Hst Hbody Hroutes Hgeo Hcoords.
  unfold _get_route_via_osrm, bind, requests_get, lift, response_json.
  rewrite Hr, Hst, Hbody. simpl. rewrite Hroutes. simpl.
  rewrite Hgeo. simpl. now rewrite Hcoords.
Qed.

(** X5: on a 200 answer with at least one route, [_get_route_via_osrm]
    returns the coordinates of the geometry of the first route as they
    are; further routes in the answer are not looked at, and nothing in
    the world changes. *)
Theorem route_geometry_of_first_route :
  forall self ordered w r fields route others geometry coords,
    service w (route_url ordered) = Responds r ->
    status_code r = 200%Z ->
    body r = Some (JObj fields) ->
    assoc "routes"%string fields = Some (JArr (JObj route :: others)) ->
    assoc "geometry"%string route = Some (JObj geometry) ->
    assoc "coordinates"%string geometry = Some coords ->
    _get_route_via_osrm self ordered w = (Ok coords, w).
Proof.
  intros self ordered w r fields route others geometry coords.
  apply get_route_ok.
Qed.

Lemma route_geometry_of_first_route_witness :
  _get_route_via_osrm Sample.two_stops [(0, 0); (1, 1)]
    (Sample.world Sample.table_ok Sample.route_ok)
  = (Ok Sample.geometry, Sample.world Sample.table_ok Sample.route_ok).
Proof.
  apply (route_geometry_of_first_route Sample.two_stops [(0, 0); (1, 1)]
           (Sample.world Sample.table_ok Sample.route_ok) Sample.route_ok
           [("code"%string, JStr "Ok");
            ("routes"%string,
             JArr [JObj [("geometry"%string,
                          JObj [("coordinates"%string, Sample.geometry);
                                ("type"%string, JStr "LineString")])]])]
           [("geometry"%string,
             JObj [("coordinates"%string, Sample.geometry);
                   ("type"%string, JStr "LineString")])]
           []
           [("coordinates"%string, Sample.geometry);
            ("type"%string, JStr "LineString")]);
    reflexivity.
Defined.

(** ** The map that is drawn *)

Lemma add_markers (locs : list (string * coord)) : forall m,
  fold_left (fun m kv => add_to (Marker (snd kv) (fst kv)) m) locs m
  = {| location := location m;
       zoom_start := zoom_start m;
       children := children m ++ markers_of locs |}.
Proof.
  induction locs as [|kv locs IH]; intros m; simpl.
  - rewrite app_nil_r. now destruct m.
  - rewrite IH. simpl. now rewrite <- app_assoc.
Qed.

Lemma line_of_pairs (pts : list (num * num)) :
  comprehension
    (fun p => rbind (unpack2 p) (fun lng_lat =>
                Ok (snd lng_lat, fst lng_lat)))
    (map (fun p => JArr [JNum (fst p); JNum (snd p)]) pts)
  = Ok (map (fun p => (JNum (snd p), JNum (fst p))) pts).
Proof.
  induction pts as [|p pts IH]; [reflexivity|].
  simpl. now rewrite IH.
Qed.

Lemma validate_pairs (pts : list (num * num)) :
  no_nan pts ->
  comprehension validate_location
    (map (fun p => JArr [JNum (snd p); JNum (fst p)]) pts)
  = Ok (line_of_points pts).
Proof.
  induction 1 as [|p pts [Hlng Hlat] _ IH]; [reflexivity|].
  cbn [map comprehension]. rewrite IH.
  unfold validate_location, validate_coord, py_float.
  now rewrite Hlat, Hlng.
Qed.

Lemma validate_locations_pairs (depth : nat) (first : json)
  (rest : list json) :
  probe_locations first = Pairs ->
  validate_locations (S depth) (JArr (first :: rest))
  = comprehension validate_location (first :: rest).
Proof. intros H. cbn [validate_locations iter_json]. now rewrite H. Qed.

Lemma polyline_ok (pts : list (num * num)) (color : string) (weight : Q) :
  pts <> [] -> no_nan pts ->
  folium_PolyLine (map (fun p => (JNum (snd p), JNum (fst p))) pts)
    color weight
  = Ok (PolyLine (line_of_points pts) color weight).
Proof.
  intros Hne Hnan. unfold folium_PolyLine. rewrite map_map.
  cbn [fst snd].
  assert (E : validate_locations recursion_limit
                (JArr (map (fun p => JArr [JNum (snd p); JNum (fst p)]) pts))
              = Ok (line_of_points pts)).
  { rewrite <- (validate_pairs pts Hnan).
    destruct pts as [|p pts]; [now contradiction Hne|].
    cbn [map]. unfold recursion_limit.
    now apply validate_locations_pairs. }
  now rewrite E.
Qed.

Lemma visualize_ok self c pts w :
  assoc "warehouse"%string (locations self) = Some c ->
  pts <> [] -> no_nan pts ->
  _visualize_route self (json_of_points pts) w
  = (Ok (drawn_map self c pts), w).
Proof.
  intros Hc Hne Hnan. unfold _visualize_route, bind, lift, ret.
  rewrite Hc. cbn [json_of_points iter_json].
  rewrite line_of_pairs, (polyline_ok pts "blue" 2.5 Hne Hnan).
  now rewrite add_markers.
Qed.

(** X6: with a "warehouse" among the locations and a route that is a
    non-empty list of two-number points, none of them NaN,
    [_visualize_route] returns a map centred on the warehouse at zoom 4
    whose children are the tile layer, then one blue line of weight 2.5
    through the points, each turned from (lng, lat) to (lat, lng), then
    one marker per location in insertion order, labelled with its name:
    2 + N children. *)
Theorem visualize_route_draws_line_and_markers :
  forall self c pts w,
    assoc "warehouse"%string (locations self) = Some c ->
    pts <> [] ->
    no_nan pts ->
    exists m,
      _visualize_route self (json_of_points pts) w = (Ok m, w) /\
      location m = [fst c; snd c] /\
      zoom_start m = 4%Z /\
      children m
      = TileLayer "OpenStreetMap"
        :: PolyLine (map (fun p => Point (snd p) (fst p)) pts) "blue" 2.5
        :: map (fun kv => Marker (snd kv) (fst kv)) (locations self) /\
      List.length (children m) = (2 + List.length (locations self))%nat.
Proof.
  intros self c pts w Hc Hne Hnan. exists (drawn_map self c pts).
  split; [now apply visualize_ok|]. repeat split.
  simpl. unfold markers_of. now rewrite length_map.
Qed.

Lemma visualize_route_draws_line_and_markers_witness :
  exists m,
    _visualize_route Sample.two_stops
      (json_of_points [(Fin 3, Fin 4)])
      (Sample.world Sample.table_ok Sample.route_ok)
    = (Ok m, Sample.world Sample.table_ok Sample.route_ok) /\
    location m = [fst ((0, 0) : coord); snd ((0, 0) : coord)] /\
    zoom_start m = 4%Z /\
    children m
    = TileLayer "OpenStreetMap"
      :: PolyLine (map (fun p => Point (snd p) (fst p)) [(Fin 3, Fin 4)])
           "blue" 2.5
      :: map (fun kv => Marker (snd kv) (fst kv))
             (locations Sample.two_stops) /\
    List.length (children m)
    = (2 + List.length (locations Sample.two_stops))%nat.
Proof.
  apply (visualize_route_draws_line_and_markers Sample.two_stops (0, 0)
           [(Fin 3, Fin 4)]
           (Sample.world Sample.table_ok Sample.route_ok)).
  - reflexivity.
  - discriminate.
  - repeat constructor.
Defined.

Lemma bad_point_value_error (points : list json) :
  Forall (fun p => exists l, p = JArr l) points ->
  Exists (fun p => exists l, p = JArr l /\ List.length l <> 2%nat) points ->
  comprehension
    (fun p => rbind (unpack2 p) (fun lng_lat =>
                Ok (snd lng_lat, fst lng_lat)))
    points
  = Raise ValueError.
Proof.
  intros Hall Hex. induction Hex as [p points (l & -> & Hl)|p points _ IH].
  - simpl. destruct l as [|a [|b [|c l]]]; try reflexivity.
    now contradiction Hl.
  - inversion Hall as [|? ? (l & ->) Hrest]; subst. simpl.
    destruct l as [|a [|b [|c l]]]; try reflexivity.
    simpl. now rewrite (IH Hrest).
Qed.

(** X7: when every point of the route is a JSON array and one of them
    does not have exactly two components (a point with an elevation,
    say), the unpacking [for lng, lat in route_coordinates] fails and
    [_visualize_route] raises ValueError. *)
Theorem visualize_route_rejects_bad_points :
  forall self c points w,
    assoc "warehouse"%string (locations self) = Some c ->
    Forall (fun p => exists l, p = JArr l) points ->
    Exists (fun p => exists l, p = JArr l /\ List.length l <> 2%nat)
           points ->
    _visualize_route self (JArr points) w = (Raise ValueError, w).
Proof.
  intros self c points w Hc Hall Hex.
  unfold _visualize_route, bind, lift. rewrite Hc. simpl.
  now rewrite (bad_point_value_error points Hall Hex).
Qed.

Lemma visualize_route_rejects_bad_points_witness :
  _visualize_route Sample.two_stops
    (JArr [JArr [JNum (Fin 0); JNum (Fin 0); JNum (Fin 12)];
           JArr [JNum (Fin 1); JNum (Fin 1)]])
    (Sample.world Sample.table_ok MoreSamples.route_3d)
  = (Raise ValueError, Sample.world Sample.table_ok MoreSamples.route_3d).
Proof.
  apply (visualize_route_rejects_bad_points Sample.two_stops (0, 0)).
  - reflexivity.
  - repeat constructor; eexists; reflexivity.
  - apply Exists_cons_hd. eexists. split; [reflexivity | discriminate].
Defined.

(** ** A whole run *)

Lemma get_distance_matrix_ok self locs w r fields n m rows :
  service w (table_url locs) = Responds r ->
  status_code r = 200%Z ->
  body r = Some (JObj fields) ->
  assoc "distances"%string fields = Some (json_of_rows rows) ->
  is_shape (S n) m rows ->
  _get_distance_matrix self locs w = (Ok (Matrix rows), w).
Proof.
  intros Hr Hst Hbody Hd Hs.
  unfold _get_distance_matrix, bind, requests_get, lift, response_json.
  rewrite Hr, Hst, Hbody. simpl. rewrite Hd.
  now rewrite (np_array_rows n m rows Hs).
Qed.

Lemma optimize_identity lsa self n rows w :
  lsa_contract lsa ->
  is_shape n n rows -> zero_diagonal n rows -> positive_off_diagonal n rows ->
  _optimize_route_scipy lsa self (Matrix rows) w = (Ok (seq 0 n), w).
Proof.
  intros Hc Hs Hz Hpos.
  pose proof (distance_matrix_finite n rows Hs Hz Hpos) as Hfin.
  destruct (optimize_square lsa Hc self n rows w Hs Hfin)
    as (cols & _ & Hp & Hmin & Hrun).
  rewrite Hrun.
  destruct (eq_or_differ (seq 0 n) cols) as [<-|Hex].
  - apply Permutation_length in Hp. now rewrite Hp.
  - reflexivity.
  - exfalso.
    destruct (moved_cost_positive n rows cols Hz Hpos Hp Hex)
      as (q1 & Hq1 & Hq1pos).
    destruct (identity_cost_zero n rows Hz) as (q0 & Hq0 & Hq0z).
    specialize (Hmin (seq 0 n) (Permutation_refl _)).
    rewrite Hq0, Hq1 in Hmin. apply num_ltb_fin in Hmin. lra.
Qed.



(** ** What a run leaves behind *)

(** X9: a [build] that returns normally was given a filename, found the
    path writable, saved exactly one file under that name, holding the
    map that [_visualize_route] returned, and logged the record of the
    save last. *)
Theorem successful_build_saved_one_file :
  forall lsa self filename w w',
    build lsa self filename w = (Ok tt, w') ->
    exists f route_coordinates route_map,
      filename = Some f /\
      writable w f = true /\
      fst (_visualize_route self route_coordinates w) = Ok route_map /\
      files w' = (f, route_map) :: files w /\
      log w' = log (after_extension_check f w) ++ [saved_info f].
Proof.
  intros lsa self [f|] w w' Hb; [|discriminate].
  rewrite build_stages in Hb. cbv zeta in Hb.
  destruct (fst (_get_distance_matrix self (locations self) w))
    as [dm|]; [|discriminate].
  destruct (fst (_optimize_route_scipy lsa self dm w))
    as [order|]; [|discriminate].
  destruct (ordered_locations (map snd (locations self)) order)
    as [ol|]; [|discriminate].
  destruct (fst (_get_route_via_osrm self ol w)) as [rc|]; [|discriminate].
  destruct (fst (_visualize_route self rc w)) as [m|] eqn:Hm;
    [|discriminate].
  destruct (writable w f) eqn:Hwr; [|discriminate].
  injection Hb as <-. exists f, rc, m. now repeat split.
Qed.

Lemma successful_build_saved_one_file_witness :
  exists f route_coordinates route_map,
    Some "route.json"%string = Some f /\
    writable (Sample.world Sample.table_ok Sample.route_ok) f = true /\
    fst (_visualize_route Sample.two_stops route_coordinates
           (Sample.world Sample.table_ok Sample.route_ok)) = Ok route_map /\
    files (snd (build Scipy.linear_sum_assignment Sample.two_stops
                  (Some "route.json"%string)
                  (Sample.world Sample.table_ok Sample.route_ok)))
    = (f, route_map)
      :: files (Sample.world Sample.table_ok Sample.route_ok) /\
    log (snd (build Scipy.linear_sum_assignment Sample.two_stops
                (Some "route.json"%string)
                (Sample.world Sample.table_ok Sample.route_ok)))
    = log (after_extension_check f
             (Sample.world Sample.table_ok Sample.route_ok))
      ++ [saved_info f].
Proof.
  apply (successful_build_saved_one_file Scipy.linear_sum_assignment
           Sample.two_stops (Some "route.json"%string)
           (Sample.world Sample.table_ok Sample.route_ok)).
  reflexivity.
Defined.

(** X10: whatever its outcome, [build] leaves the routing service and
    the write permissions as they were, keeps every record already in
    the log and adds at most two, and keeps every file already saved and
    adds at most one. *)
Theorem build_only_appends :
  forall lsa self filename w,
    let w' := snd (build lsa self filename w) in
    service w' = service w /\
    writable w' = writable w /\
    (exists added,
       log w' = log w ++ added /\ (List.length added <= 2)%nat) /\
    (exists saved,
       files w' = saved ++ files w /\ (List.length saved <= 1)%nat).
Proof.
  intros lsa self [f|] w; cbv zeta.
  2:{ simpl. repeat split; exists []; split; simpl; auto using app_nil_r. }
  assert (Hlog : exists a, log (after_extension_check f w) = log w ++ a /\
                           (List.length a <= 1)%nat).
  { unfold after_extension_check. destruct (negb _).
    - exists [extension_warning f]. simpl. auto.
    - exists []. rewrite app_nil_r. simpl. auto. }
  destruct (after_extension_check_frame f w) as (Hs & Hw & Hf).
  destruct Hlog as (a & Ha & Hla).
  assert (Hfail : forall e : exn,
    service (snd (@Raise unit e, after_extension_check f w)) = service w /\
    writable (snd (@Raise unit e, after_extension_check f w)) = writable w /\
    (exists added,
       log (snd (@Raise unit e, after_extension_check f w)) = log w ++ added
       /\ (List.length added <= 2)%nat) /\
    (exists saved,
       files (snd (@Raise unit e, after_extension_check f w))
       = saved ++ files w /\ (List.length saved <= 1)%nat)).
  { intros e. simpl. repeat split; try assumption.
    - exists a. split; [assumption | lia].
    - exists []. split; [assumption | simpl; lia]. }
  rewrite build_stages. cbv zeta.
  destruct (fst (_get_distance_matrix self (locations self) w))
    as [dm|]; [|apply Hfail].
  destruct (fst (_optimize_route_scipy lsa self dm w))
    as [order|]; [|apply Hfail].
  destruct (ordered_locations (map snd (locations self)) order)
    as [ol|]; [|apply Hfail].
  destruct (fst (_get_route_via_osrm self ol w)) as [rc|]; [|apply Hfail].
  destruct (fst (_visualize_route self rc w)) as [m|]; [|apply Hfail].
  destruct (writable w f); [|apply Hfail].
  simpl. repeat split.
  - exists (a ++ [saved_info f]). rewrite Ha, <- app_assoc.
    split; [reflexivity|]. rewrite length_app. simpl. lia.
  - exists [(f, m)]. split; [reflexivity | simpl; lia].
Qed.

(** ** The extension of the output filename *)

Lemma append_empty (s : string) : (s ++ EmptyString)%string = s.
Proof. induction s as [|c s IH]; simpl; [reflexivity | now rewrite IH]. Qed.

Lemma substring_whole (s : string) : substring 0 (String.length s) s = s.
Proof. induction s as [|c s IH]; simpl; [reflexivity | now rewrite IH]. Qed.

Lemma substring_split : forall (s : string) (n : nat),
  (substring 0 n s ++ substring n (String.length s - n) s)%string = s.
Proof.
  induction s as [|c s IH]; intros [|n]; simpl; try reflexivity.
  - now rewrite substring_whole.
  - now rewrite IH.
Qed.

Lemma substring_from_char : forall (s : string) (n : nat) (c : ascii),
  String.get n s = Some c ->
  exists rest, substring n (String.length s - n) s = String c rest.
Proof.
  induction s as [|a s IH]; intros [|n] c Hget; simpl in *;
    try discriminate.
  - injection Hget as <-. now eexists.
  - now apply IH.
Qed.

Lemma rfind_from_spec (c : ascii) : forall (p : string) (i last : Z),
  rfind_from p c i last = last \/
  ((i <= rfind_from p c i last < i + Z.of_nat (String.length p))%Z /\
   String.get (Z.to_nat (rfind_from p c i last - i)) p = Some c).
Proof.
  induction p as [|a p IH]; intros i last; simpl rfind_from.
  - now left.
  - destruct (IH (i + 1)%Z (if Ascii.eqb a c then i else last))
      as [E | [Hr Hget]].
    + rewrite E. destruct (Ascii.eqb a c) eqn:Hac; [|now left].
      right. apply Ascii.eqb_eq in Hac. subst a. split.
      * simpl String.length. lia.
      * now rewrite Z.sub_diag.
    + right. split.
      * simpl String.length. lia.
      * match goal with
        | |- String.get (Z.to_nat (?r - i)) _ = _ =>
            replace (Z.to_nat (r - i)) with (S (Z.to_nat (r - (i + 1))))
              by lia
        end.
        exact Hget.
Qed.

Lemma splitext_concat (p : string) :
  (fst (splitext p) ++ snd (splitext p))%string = p.
Proof.
  unfold splitext. destruct (_ && _); simpl.
  - apply substring_split.
  - apply append_empty.
Qed.

(** X11: [os.path.splitext], as [build] uses it, cuts the filename in
    two without losing a character, and the extension it returns is
    empty or begins with a period; so the extension quoted in the warning
    is always the tail of the filename that was given. *)
Theorem extension_is_a_dotted_suffix :
  forall filename,
    (fst (splitext filename) ++ snd (splitext filename))%string = filename /\
    (snd (splitext filename) = EmptyString \/
     exists rest, snd (splitext filename) = String "."%char rest) /\
    snd (extension_warning filename)
    = ("The filename extension should be '.html', provided '"
       ++ snd (splitext filename) ++ "'.")%string.
Proof.
  intros p. split; [apply splitext_concat | split; [|reflexivity]].
  unfold splitext.
  destruct ((rfind p "/" <? rfind p ".")%Z && _) eqn:E; simpl;
    [|now left].
  right. apply andb_true_iff in E. destruct E as [Hlt _].
  apply Z.ltb_lt in Hlt. unfold rfind in *.
  destruct (rfind_from_spec "/"%char p 0 (-1)) as [Es | [Hs _]];
    destruct (rfind_from_spec "."%char p 0 (-1)) as [Ed | [Hd Hget]];
    try lia;
    rewrite Z.sub_0_r in Hget;
    now apply substring_from_char.
Qed.

(** X12: when the extension is ".html" the filename ends in ".html",
    [build] logs no warning: a run that fails leaves the world exactly as
    it was, and a run that succeeds adds the record of the save and
    nothing else to the log. *)
Theorem html_extension_logs_no_warning :
  forall lsa self f w,
    snd (splitext f) = ".html"%string ->
    f = (fst (splitext f) ++ ".html")%string /\
    (forall e w', build lsa self (Some f) w = (Raise e, w') -> w' = w) /\
    (forall w', build lsa self (Some f) w = (Ok tt, w') ->
                log w' = log w ++ [saved_info f]).
Proof.
  intros lsa self f w Hext.
  assert (Hw : after_extension_check f w = w).
  { unfold after_extension_check. rewrite Hext. reflexivity. }
  split; [|split].
  - rewrite <- Hext. symmetry. apply splitext_concat.
  - intros e w' Hb. rewrite build_stages in Hb. cbv zeta in Hb.
    rewrite Hw in Hb.
    destruct (fst (_get_distance_matrix self (locations self) w))
      as [dm|]; [|now injection Hb as _ <-].
    destruct (fst (_optimize_route_scipy lsa self dm w))
      as [order|]; [|now injection Hb as _ <-].
    destruct (ordered_locations (map snd (locations self)) order)
      as [ol|]; [|now injection Hb as _ <-].
    destruct (fst (_get_route_via_osrm self ol w))
      as [rc|]; [|now injection Hb as _ <-].
    destruct (fst (_visualize_route self rc w))
      as [m|]; [|now injection Hb as _ <-].
    destruct (writable w f); [discriminate | now injection Hb as _ <-].
  - intros w' Hb. rewrite build_stages in Hb. cbv zeta in Hb.
    rewrite Hw in Hb.
    destruct (fst (_get_distance_matrix self (locations self) w))
      as [dm|]; [|discriminate].
    destruct (fst (_optimize_route_scipy lsa self dm w))
      as [order|]; [|discriminate].
    destruct (ordered_locations (map snd (locations self)) order)
      as [ol|]; [|discriminate].
    destruct (fst (_get_route_via_osrm self ol w))
      as [rc|]; [|discriminate].
    destruct (fst (_visualize_route self rc w))
      as [m|]; [|discriminate].
    destruct (writable w f); [|discriminate].
    now injection Hb as <-.
Qed.

Lemma html_extension_logs_no_warning_witness :
  log (snd (build Scipy.linear_sum_assignment Sample.two_stops
              (Some "maps/optimized_route.html"%string)
              (Sample.world Sample.table_ok Sample.route_ok)))
  = log (Sample.world Sample.table_ok Sample.route_ok)
    ++ [saved_info "maps/optimized_route.html"].
Proof.
  apply (html_extension_logs_no_warning Scipy.linear_sum_assignment
           Sample.two_stops "maps/optimized_route.html"
           (Sample.world Sample.table_ok Sample.route_ok)).
  - reflexivity.
  - reflexivity.
Defined.

(** ** The matrix that comes back from the service *)

Lemma all_some_Forall2 {A B} (f : A -> option B) : forall l r,
  all_some (map f l) = Some r -> Forall2 (fun x y => f x = Some y) l r.
Proof.
  induction l as [|x l IH]; intros r H; simpl in H.
  - injection H as <-. constructor.
  - destruct (f x) as [y|] eqn:Hx; [|discriminate].
    destruct (all_some (map f l)) as [r'|] eqn:Hl; [|discriminate].
    injection H as <-. constructor; [assumption | now apply IH].
Qed.

Lemma as_number_leaf j x : as_number j = Some x -> shape_of j = Some [].
Proof. destruct j; simpl; intros H; try discriminate; reflexivity. Qed.

Lemma as_row_shape item row :
  as_row item = Some row -> shape_of item = Some [List.length row].
Proof.
  destruct item as [| | | |l| |]; simpl; try discriminate. intros H.
  apply all_some_Forall2 in H.
  rewrite <- (Forall2_length H).
  assert (Hleaf : map shape_of l = map (fun _ => Some []) l).
  { clear -H. induction H as [|x y l row Hxy _ IH]; [reflexivity|].
    cbn [map]. now rewrite (as_number_leaf x y Hxy), IH. }
  change (shape_of (JArr l) = Some [List.length l]).
  rewrite shape_of_JArr, Hleaf.
  destruct l as [|x l]; [reflexivity|].
  cbn [map]. rewrite same_shape_all. now rewrite length_map.
Qed.

Lemma rows_of_one_width (b : nat) : forall items rows,
  Forall2 (fun item row => as_row item = Some row) items rows ->
  Forall (fun item => shape_of item = Some [b]) items ->
  Forall (fun row => List.length row = b) rows.
Proof.
  induction 1 as [|item row items rows Hrow _ IH]; intros Hall;
    [constructor|].
  inversion Hall as [|? ? Hitem Hitems]; subst. constructor.
  - apply as_row_shape in Hrow. congruence.
  - now apply IH.
Qed.

Lemma np_array_matrix_shape j rows :
  np_array j = Ok (Matrix rows) ->
  exists r c, is_shape (S r) c rows.
Proof.
  unfold np_array. destruct (shape_of j) as [s|] eqn:Hsh; [|discriminate].
  destruct s as [|a [|b [|x s]]]; try discriminate.
  destruct (as_rows j) as [rows'|] eqn:Hrows; [|discriminate].
  destruct (has_float j || ints_fit j); [|discriminate].
  intros H. injection H as <-.
  destruct j as [| | | |items| |]; try discriminate.
  simpl in Hrows. apply all_some_Forall2 in Hrows.
  rewrite shape_of_JArr in Hsh.
  destruct (map shape_of items) as [|[s|] ss] eqn:Hm; try discriminate.
  destruct (forallb _ ss) eqn:Hfa; [|discriminate].
  injection Hsh as <- ->.
  assert (Hshapes : Forall (fun item => shape_of item = Some [b]) items).
  { apply Forall_forall. intros item Hitem.
    apply (in_map shape_of) in Hitem. rewrite Hm in Hitem.
    destruct Hitem as [<-|Hitem]; [reflexivity|].
    rewrite forallb_forall in Hfa. specialize (Hfa _ Hitem).
    destruct (shape_of item) as [s'|]; [|discriminate].
    destruct (list_eq_dec Nat.eq_dec [b] s'); [congruence | discriminate]. }
  exists (List.length ss), b. split.
  - rewrite <- (Forall2_length Hrows), <- (length_map shape_of), Hm.
    reflexivity.
  - exact (rows_of_one_width b items rows' Hrows Hshapes).
Qed.

(** X13: a matrix returned by [_get_distance_matrix] is never empty and
    never ragged: it has at least one row and all its rows have one
    length (not necessarily the number of rows, or of locations); the
    call leaves the world as it was. *)
Theorem distance_matrix_is_rectangular :
  forall self locs w rows w',
    _get_distance_matrix self locs w = (Ok (Matrix rows), w') ->
    w' = w /\ exists r c, is_shape (S r) c rows.
Proof.
  intros self locs w rows w'.
  unfold _get_distance_matrix, bind, requests_get, throw, lift.
  destruct (service w (table_url locs)) as [|r]; [discriminate|].
  destruct (negb (status_code r =? 200)%Z); [discriminate|].
  destruct (response_json r) as [data|]; [|discriminate].
  destruct (getitem_str data "distances") as [distances|]; [|discriminate].
  intros H. injection H as H <-. split; [reflexivity|].
  now apply (np_array_matrix_shape distances).
Qed.

Lemma distance_matrix_is_rectangular_witness :
  Sample.world Sample.table_1x1 Sample.route_ok
  = Sample.world Sample.table_1x1 Sample.route_ok /\
  exists r c, is_shape (S r) c [[Fin 0]].
Proof.
  apply (distance_matrix_is_rectangular Sample.two_stops
           (locations Sample.two_stops)
           (Sample.world Sample.table_1x1 Sample.route_ok)).
  reflexivity.
Defined.

(** ** Failures on the way *)



(** X15: [build] recovers from nothing and raises nothing of its own
    once it has a filename: an exception that comes out of it is the one
    raised by the first stage that failed (distance matrix, optimizer,
    reordering, route request, renderer, or the save), every stage
    before it succeeded, and the world is the one left by the extension
    check. *)
Theorem build_raises_the_first_failure :
  forall lsa self f w e w',
    build lsa self (Some f) w = (Raise e, w') ->
    w' = after_extension_check f w /\
    (fst (_get_distance_matrix self (locations self) w) = Raise e \/
     exists distance_matrix,
       fst (_get_distance_matrix self (locations self) w)
       = Ok distance_matrix /\
       (fst (_optimize_route_scipy lsa self distance_matrix w) = Raise e \/
        exists route_order,
          fst (_optimize_route_scipy lsa self distance_matrix w)
          = Ok route_order /\
          (ordered_locations (map snd (locations self)) route_order
           = Raise e \/
           exists ordered,
             ordered_locations (map snd (locations self)) route_order
             = Ok ordered /\
             (fst (_get_route_via_osrm self ordered w) = Raise e \/
              exists route_coordinates,
                fst (_get_route_via_osrm self ordered w)
                = Ok route_coordinates /\
                (fst (_visualize_route self route_coordinates w) = Raise e \/
                 exists route_map,
                   fst (_visualize_route self route_coordinates w)
                   = Ok route_map /\
                   writable w f = false /\ e = OSError))))).
Proof.
  intros lsa self f w e w' Hb.
  rewrite build_stages in Hb. cbv zeta in Hb.
  destruct (fst (_get_distance_matrix self (locations self) w))
    as [dm|e1]; [|injection Hb as -> <-; auto].
  destruct (fst (_optimize_route_scipy lsa self dm w))
    as [order|e2] eqn:Hopt.
  2:{ injection Hb as -> <-. split; [reflexivity|].
      right. exists dm. rewrite Hopt. auto. }
  destruct (ordered_locations (map snd (locations self)) order)
    as [ol|e3] eqn:Hord.
  2:{ injection Hb as -> <-. split; [reflexivity|].
      right. exists dm. rewrite Hopt. split; [reflexivity|].
      right. exists order. auto. }
  destruct (fst (_get_route_via_osrm self ol w)) as [rc|e4] eqn:Hrc.
  2:{ injection Hb as -> <-. split; [reflexivity|].
      right. exists dm. rewrite Hopt. split; [reflexivity|].
      right. exists order. split; [reflexivity|].
      right. exists ol. auto. }
  destruct (fst (_visualize_route self rc w)) as [m|e5] eqn:Hm.
  2:{ injection Hb as -> <-. split; [reflexivity|].
      right. exists dm. rewrite Hopt. split; [reflexivity|].
      right. exists order. split; [reflexivity|].
      right. exists ol. split; [assumption|].
      right. exists rc. auto. }
  destruct (writable w f) eqn:Hwr; [discriminate|].
  injection Hb as <- <-. split; [reflexivity|].
  right. exists dm. rewrite Hopt. split; [reflexivity|].
  right. exists order. split; [reflexivity|].
  right. exists ol. split; [assumption|].
  right. exists rc. split; [assumption|].
  right. exists m. auto.
Qed.

Lemma build_raises_the_first_failure_witness :
  Sample.world (Sample.failing 500) Sample.route_ok
  = after_extension_check "optimized_route.html"
      (Sample.world (Sample.failing 500) Sample.route_ok).
Proof.
  apply (build_raises_the_first_failure Scipy.linear_sum_assignment
           Sample.two_stops "optimized_route.html"
           (Sample.world (Sample.failing 500) Sample.route_ok)
           (Exception_ "Failed to obtain distance matrix from OSRM")
           (Sample.world (Sample.failing 500) Sample.route_ok)).
  reflexivity.
Defined.
